(** * ffxl: feature-flag evaluation, validation and the configuration cache

    A shallow embedding of the TypeScript sources [types.ts], [environment.ts],
    [config.ts], [evaluator.ts] and [loader.ts].

    The code works on untyped data: [JSON.parse] and [yaml.load] return
    arbitrary trees and the TypeScript annotations are erased at run time, so
    configurations are modelled as JSON trees and every property read, truth
    test and [in] test is written out with the JavaScript semantics it has on
    such a tree.  Module-level variables ([cachedConfig], the static fields of
    [Logger]) and the output channels form an explicit state; functions that
    can throw live in a state-and-exception monad in which the state survives
    a throw, as it does in JavaScript.  A host brings its own [JSON] object;
    the one of the language is written out on trees in module [Json], and the
    round trip through it is proved. *)

From Stdlib Require Import ZArith Ascii String DecimalString DecimalFacts DecimalPos.
From stdpp Require Import base option list strings gmap.

Local Open Scope Z_scope.
Local Open Scope string_scope.

(** ** Values *)

(** The trees produced by [JSON.parse] (and by the YAML loader's core schema).
    Objects keep their own properties in enumeration order.  Numbers are
    represented by integers: the code only tests a number for being zero and
    for being positive. *)
#[warnings="-register-all"]
Inductive JsValue : Type :=
| JNull
| JBool (b : bool)
| JNum (n : Z)
| JStr (s : string)
| JArr (items : list JsValue)
| JObj (props : list (string * JsValue)).

(** What an expression can evaluate to: [undefined], a member inherited from
    a built-in prototype (a function such as [Object.prototype.toString], or
    the prototype object behind [__proto__]), or a tree. *)
Inductive JsRt : Type :=
| Undefined
| Builtin
| Val (v : JsValue).

Inductive JsError : Type :=
| FeatureFlagValidationError (message : string)
| YAMLException (message : string)
| SyntaxError (message : string)
| TypeError (message : string)
| ReferenceError (message : string)
| Error (message : string).

Definition message (e : JsError) : string :=
  match e with
  | FeatureFlagValidationError m | YAMLException m | SyntaxError m
  | TypeError m | ReferenceError m | Error m => m
  end.

(** [error instanceof FeatureFlagValidationError] *)
Definition isValidationError (e : JsError) : bool :=
  match e with FeatureFlagValidationError _ => true | _ => false end.

(** [error instanceof yaml.YAMLException] *)
Definition isYAMLException (e : JsError) : bool :=
  match e with YAMLException _ => true | _ => false end.

Inductive JsResult (A : Type) : Type :=
| Ok (a : A)
| Throw (e : JsError).
Arguments Ok {A} a.
Arguments Throw {A} e.

Definition rbind {A B : Type} (r : JsResult A) (f : A -> JsResult B) : JsResult B :=
  match r with
  | Ok a => f a
  | Throw e => Throw e
  end.

Declare Scope js_scope.
Delimit Scope js_scope with js.
Notation "x <~ c ;; k" := (rbind c (fun x => k))
  (at level 100, c at next level, right associativity) : js_scope.
Local Open Scope js_scope.

(** The double quote, for the messages that quote a name. *)
Definition dq : string := String (Ascii.ascii_of_nat 34) EmptyString.

(** ** Property access *)

Fixpoint assoc {A : Type} (k : string) (l : list (string * A)) : option A :=
  match l with
  | [] => None
  | (k', v) :: l' => if String.eqb k k' then Some v else assoc k l'
  end.

(** Decimal spelling of an array index. *)
Definition indexKey (i : nat) : string :=
  DecimalString.NilZero.string_of_uint (Nat.to_uint i).

Fixpoint indexedFrom {A : Type} (i : nat) (l : list A) : list (string * A) :=
  match l with
  | [] => []
  | x :: l' => (indexKey i, x) :: indexedFrom (S i) l'
  end.

Fixpoint codeUnits (s : string) : list JsValue :=
  match s with
  | EmptyString => []
  | String c s' => JStr (String c EmptyString) :: codeUnits s'
  end.

(** [Object.entries(v)]: own enumerable string-keyed properties, in order. *)
Definition entries (v : JsValue) : list (string * JsValue) :=
  match v with
  | JObj props => props
  | JArr items => indexedFrom 0 items
  | JStr s => indexedFrom 0 (codeUnits s)
  | _ => []
  end.

(** Own properties, enumerable or not ([length] of arrays and strings). *)
Definition ownProperty (v : JsValue) (k : string) : option JsValue :=
  match v with
  | JObj props => assoc k props
  | JArr items =>
      if String.eqb k "length" then Some (JNum (Z.of_nat (length items)))
      else assoc k (indexedFrom 0 items)
  | JStr s =>
      if String.eqb k "length" then Some (JNum (Z.of_nat (String.length s)))
      else assoc k (indexedFrom 0 (codeUnits s))
  | _ => None
  end.

Definition objectPrototype : list string :=
  ["constructor"; "__defineGetter__"; "__defineSetter__"; "hasOwnProperty";
   "__lookupGetter__"; "__lookupSetter__"; "isPrototypeOf";
   "propertyIsEnumerable"; "toString"; "valueOf"; "__proto__";
   "toLocaleString"].

Definition arrayPrototype : list string :=
  ["at"; "concat"; "copyWithin"; "fill"; "find"; "findIndex"; "findLast";
   "findLastIndex"; "lastIndexOf"; "pop"; "push"; "reverse"; "shift";
   "unshift"; "slice"; "sort"; "splice"; "includes"; "indexOf"; "join";
   "keys"; "entries"; "values"; "forEach"; "filter"; "flat"; "flatMap";
   "map"; "every"; "some"; "reduce"; "reduceRight"; "toReversed";
   "toSorted"; "toSpliced"; "with"].

Definition stringPrototype : list string :=
  ["anchor"; "at"; "big"; "blink"; "bold"; "charAt"; "charCodeAt";
   "codePointAt"; "concat"; "endsWith"; "fontcolor"; "fontsize"; "fixed";
   "includes"; "indexOf"; "isWellFormed"; "italics"; "lastIndexOf"; "link";
   "localeCompare"; "match"; "matchAll"; "normalize"; "padEnd"; "padStart";
   "repeat"; "replace"; "replaceAll"; "search"; "slice"; "small"; "split";
   "strike"; "sub"; "substr"; "substring"; "sup"; "startsWith";
   "toWellFormed"; "trim"; "trimStart"; "trimLeft"; "trimEnd"; "trimRight";
   "toLocaleLowerCase"; "toLocaleUpperCase"; "toLowerCase"; "toUpperCase"].

Definition numberPrototype : list string :=
  ["toExponential"; "toFixed"; "toPrecision"].

Definition memberOf (k : string) (l : list string) : bool :=
  existsb (String.eqb k) l.

(** Whether the prototype chain of [v] defines [k] (ECMAScript 2023, no
    additions by the program: the sources add none). *)
Definition inherited (v : JsValue) (k : string) : bool :=
  match v with
  | JNull => false
  | JBool _ => memberOf k objectPrototype
  | JNum _ => memberOf k numberPrototype || memberOf k objectPrototype
  | JStr _ => memberOf k stringPrototype || memberOf k objectPrototype
  | JArr _ => memberOf k arrayPrototype || memberOf k objectPrototype
  | JObj _ => memberOf k objectPrototype
  end.

(** [v[k]] and [v.k].  Reading a property of [undefined] or [null] throws.
    The members of built-ins have none of the properties this program reads
    from a feature ([onlyForUserIds], [enabled]). *)
Definition getProp (v : JsRt) (k : string) : JsResult JsRt :=
  match v with
  | Undefined =>
      Throw (TypeError ("Cannot read properties of undefined (reading '" +:+ k +:+ "')"))
  | Val JNull =>
      Throw (TypeError ("Cannot read properties of null (reading '" +:+ k +:+ "')"))
  | Builtin => Ok Undefined
  | Val v =>
      match ownProperty v k with
      | Some x => Ok (Val x)
      | None => Ok (if inherited v k then Builtin else Undefined)
      end
  end.

(** [k in v]: throws unless [v] is an object. *)
Definition hasProperty (k : string) (v : JsRt) : JsResult bool :=
  match v with
  | Val (JObj _ as o) | Val (JArr _ as o) =>
      Ok (bool_decide (is_Some (ownProperty o k)) || inherited o k)
  | Builtin => Ok false
  | _ => Throw (TypeError ("Cannot use 'in' operator to search for '" +:+ k +:+ "'"))
  end.

(** ToBoolean *)
Definition truthy (v : JsRt) : bool :=
  match v with
  | Undefined => false
  | Builtin => true
  | Val JNull => false
  | Val (JBool b) => b
  | Val (JNum n) => negb (Z.eqb n 0)
  | Val (JStr s) => negb (String.eqb s "")
  | Val (JArr _) | Val (JObj _) => true
  end.

(** [x === true] *)
Definition strictEqTrue (v : JsRt) : bool :=
  match v with Val (JBool true) => true | _ => false end.

(** [typeof v]: only the answers the sources compare against. *)
Inductive JsType : Type := TObject | TBoolean | TString | TOther.

Definition typeof (v : JsRt) : JsType :=
  match v with
  | Val JNull | Val (JArr _) | Val (JObj _) => TObject
  | Val (JBool _) => TBoolean
  | Val (JStr _) => TString
  | Val (JNum _) | Undefined | Builtin => TOther
  end.

Definition isType (t : JsType) (v : JsRt) : bool :=
  match t, typeof v with
  | TObject, TObject | TBoolean, TBoolean | TString, TString => true
  | _, _ => false
  end.

Definition isNull (v : JsRt) : bool :=
  match v with Val JNull => true | _ => false end.

(** [Array.isArray] *)
Definition isArray (v : JsRt) : bool :=
  match v with Val (JArr _) => true | _ => false end.

Definition digits (n : Z) : string :=
  DecimalString.NilZero.string_of_int (Z.to_int n).

(** ToString of a tree, as [Array.prototype.join] and ToPrimitive use it.
    An array is joined, with [null] elements left empty.  An object goes
    through its [toString] method: the inherited one answers
    ["[object Object]"]; an own property [toString] of a tree hides it and is
    not callable, nor can [valueOf] give a primitive, so the conversion
    throws. *)
Fixpoint toString (v : JsValue) : JsResult string :=
  match v with
  | JNull => Ok "null"
  | JBool b => Ok (if b then "true" else "false")
  | JNum n => Ok (digits n)
  | JStr s => Ok s
  | JArr items =>
      let element x := match x with JNull => Ok "" | _ => toString x end in
      (fix join (l : list JsValue) : JsResult string :=
         match l with
         | [] => Ok ""
         | [x] => element x
         | x :: l' =>
             first <~ element x ;;
             others <~ join l' ;;
             Ok (first +:+ "," +:+ others)
         end) items
  | JObj props =>
      match assoc "toString" props with
      | Some _ => Throw (TypeError "Cannot convert object to primitive value")
      | None => Ok "[object Object]"
      end
  end.

(** SameValueZero against a string, the comparison of
    [Array.prototype.includes] when the searched value is a string. *)
Definition sameValueZero (x : string) (v : JsValue) : bool :=
  match v with JStr s => String.eqb s x | _ => false end.

(** [String.prototype.includes]: [p] occurs in [s]. *)
Fixpoint isSubstring (p s : string) : bool :=
  String.prefix p s ||
  match s with
  | EmptyString => false
  | String _ s' => isSubstring p s'
  end.

(** [receiver.includes(x)] for a string [x].  Arrays and strings inherit the
    method; on anything else [includes] is [undefined] or, on a parsed object
    with such a key, a tree: calling it throws. *)
Definition callIncludes (receiver : JsRt) (x : string) : JsResult bool :=
  match receiver with
  | Val (JArr items) => Ok (existsb (sameValueZero x) items)
  | Val (JStr s) => Ok (isSubstring x s)
  | Undefined =>
      Throw (TypeError "Cannot read properties of undefined (reading 'includes')")
  | Val JNull =>
      Throw (TypeError "Cannot read properties of null (reading 'includes')")
  | _ => Throw (TypeError "includes is not a function")
  end.

(** ** Host and module state *)

(** [types.ts]: [type Environment = 'browser' | 'node'] *)
Inductive Environment : Type := browser | node.

(** [types.ts]: [interface UserIdentity] *)
Record UserIdentity : Type := {
  userId : option string;
  handle : option string;
  email : option string
}.

(** What the program asks of its surroundings: the globals it inspects, the
    file system, the [path] module, the YAML loader and the [JSON] object.
    [process_env] is [None] when there is no usable [process.env]. *)
Record Host : Type := {
  has_window : bool;
  has_document : bool;
  window_DEV : bool;
  process_versions_node : bool;
  process_env : option (gmap string string);
  process_cwd : string;
  path_isAbsolute : string -> bool;
  path_join : string -> string -> string;
  fs_existsSync : string -> bool;
  fs_readFileSync : string -> JsResult string;
  yaml_load : string -> JsResult JsRt;
  JSON_parse : string -> JsResult JsValue;
  JSON_stringify : JsValue -> string;
  (** [Number(s) > 0] for a string [s] *)
  Number_gt0 : string -> bool
}.

(** [x > 0]: ToNumber of [undefined] is NaN, of [null] is 0, of an object
    goes through its string, whose computation can throw; the string of an
    object that is not an array is not a numeral. *)
Definition greaterThanZero (h : Host) (x : JsRt) : JsResult bool :=
  match x with
  | Undefined | Builtin => Ok false
  | Val JNull => Ok false
  | Val (JBool b) => Ok b
  | Val (JNum n) => Ok (Z.ltb 0 n)
  | Val (JStr s) => Ok (Number_gt0 h s)
  | Val (JArr items) =>
      text <~ toString (JArr items) ;;
      Ok (Number_gt0 h text)
  | Val (JObj props) =>
      _ <~ toString (JObj props) ;;
      Ok false
  end.

Inductive Output : Type :=
| console_info (line : string)
| console_warn (line : string)
| console_error (line : string)
| stdout_write (text : string)
| stderr_write (text : string).

(** The module-level variables: [cachedConfig] of [config.ts] ([null] when
    empty), the static fields of [Logger], and what has been written so far. *)
Record State : Type := {
  cachedConfig : JsValue;
  Logger_env : Environment;
  Logger_isDev : bool;
  output : list Output
}.

Definition setCache (c : JsValue) (s : State) : State :=
  {| cachedConfig := c; Logger_env := Logger_env s;
     Logger_isDev := Logger_isDev s; output := output s |}.

Definition addOutput (o : Output) (s : State) : State :=
  {| cachedConfig := cachedConfig s; Logger_env := Logger_env s;
     Logger_isDev := Logger_isDev s; output := output s ++ [o] |}.

(** ** Computations that may throw *)

Definition M (A : Type) : Type := State -> JsResult A * State.

Definition ret {A : Type} (a : A) : M A := fun s => (Ok a, s).

Definition throw {A : Type} (e : JsError) : M A := fun s => (Throw e, s).

Definition lift {A : Type} (r : JsResult A) : M A := fun s => (r, s).

Definition bind {A B : Type} (m : M A) (f : A -> M B) : M B :=
  fun s =>
    match m s with
    | (Ok a, s') => f a s'
    | (Throw e, s') => (Throw e, s')
    end.

(** [try { m } catch (error) { handler error }] *)
Definition tryCatch {A : Type} (m : M A) (handler : JsError -> M A) : M A :=
  fun s =>
    match m s with
    | (Ok a, s') => (Ok a, s')
    | (Throw e, s') => handler e s'
    end.

Notation "x <- c ;; k" := (bind c (fun x => k))
  (at level 100, c at next level, right associativity) : js_scope.
Notation "c ;; k" := (bind c (fun _ => k))
  (at level 100, right associativity) : js_scope.

(** ** environment.ts *)

Definition detectEnvironment (h : Host) : Environment :=
  if has_window h && has_document h then browser
  else if bool_decide (is_Some (process_env h)) && process_versions_node h then node
  else node.

Definition isDevelopment (h : Host) : bool :=
  let nodeEnv := process_env h ≫= (fun env => env !! "NODE_ENV") in
  if bool_decide (nodeEnv = Some "development") || bool_decide (nodeEnv = Some "dev")
  then true
  else if has_window h && window_DEV h then true
  else false.

(** The state in which the modules have just been loaded. *)
Definition initialState (h : Host) : State :=
  {| cachedConfig := JNull; Logger_env := detectEnvironment h;
     Logger_isDev := isDevelopment h; output := [] |}.

Definition newline : string := String (Ascii.ascii_of_nat 10) EmptyString.

Definition prefix : string := "[ffxl]".

(** The three methods of [Logger], always called without extra arguments.
    Writing to the console or to a stream is taken not to fail. *)
Definition Logger_info (msg : string) : M unit :=
  fun s =>
    if negb (Logger_isDev s) then (Ok tt, s)
    else match Logger_env s with
         | browser => (Ok tt, addOutput (console_info (prefix +:+ " " +:+ msg)) s)
         | node => (Ok tt, addOutput (stdout_write (prefix +:+ " " +:+ msg +:+ newline)) s)
         end.

Definition Logger_warn (msg : string) : M unit :=
  fun s =>
    if negb (Logger_isDev s) then (Ok tt, s)
    else match Logger_env s with
         | browser => (Ok tt, addOutput (console_warn (prefix +:+ " " +:+ msg)) s)
         | node =>
             (Ok tt, addOutput (stderr_write (prefix +:+ " WARNING: " +:+ msg +:+ newline)) s)
         end.

Definition Logger_error (msg : string) : M unit :=
  fun s =>
    match Logger_env s with
    | browser => (Ok tt, addOutput (console_error (prefix +:+ " " +:+ msg)) s)
    | node => (Ok tt, addOutput (stderr_write (prefix +:+ " ERROR: " +:+ msg +:+ newline)) s)
    end.

(** ** config.ts *)

(** [{ features: {} }] *)
Definition emptyConfig : JsValue := JObj [("features", JObj [])].

Definition readCache : M JsValue := fun s => (Ok (cachedConfig s), s).

Definition writeCache (c : JsValue) : M unit := fun s => (Ok tt, setCache c s).

(** [a || b] on two optional strings: [a] when it is defined and not empty. *)
Definition orElse (a b : option string) : option string :=
  match a with
  | Some s => if String.eqb s "" then b else a
  | None => b
  end.

(** [process.env.FEATURE_FLAGS_CONFIG || process.env.FFXL_CONFIG], or
    [undefined] without [process.env]. *)
Definition configString (h : Host) : option string :=
  match process_env h with
  | Some env => orElse (env !! "FEATURE_FLAGS_CONFIG") (env !! "FFXL_CONFIG")
  | None => None
  end.

Definition getConfig (h : Host) : M JsValue :=
  cached <- readCache ;;
  if truthy (Val cached) then ret cached
  else
    tryCatch
      (match configString h with
       | None | Some "" =>
           Logger_warn "No feature flags configuration found in environment" ;;
           writeCache emptyConfig ;;
           readCache
       | Some text =>
           parsed <- lift (JSON_parse h text) ;;
           writeCache parsed ;;
           Logger_info "Feature flags configuration loaded successfully" ;;
           readCache
       end)
      (fun error =>
         Logger_error ("Failed to parse feature flags config: " +:+ message error) ;;
         writeCache emptyConfig ;;
         readCache).

Definition clearCache : M unit := writeCache JNull.

(** ** evaluator.ts *)

(** The part of [isFeatureEnabled] after [getConfig()]. *)
Definition evaluate (h : Host) (config : JsValue) (featureName : string)
    (user : option UserIdentity) : M bool :=
  features <- lift (getProp (Val config) "features") ;;
  feature <- lift (getProp features featureName) ;;
  if negb (truthy feature) then
    Logger_warn ("Feature " +:+ dq +:+ featureName +:+ dq +:+ " not found in configuration") ;;
    ret false
  else
    onlyForUserIds <- lift (getProp feature "onlyForUserIds") ;;
    restricted <-
      (if truthy onlyForUserIds then
         len <- lift (getProp onlyForUserIds "length") ;;
         lift (greaterThanZero h len)
       else ret false) ;;
    if restricted then
      match user ≫= userId with
      | None | Some "" => ret false
      | Some id => lift (callIncludes onlyForUserIds id)
      end
    else
      hasEnabled <- lift (hasProperty "enabled" feature) ;;
      if hasEnabled then
        enabled <- lift (getProp feature "enabled") ;;
        ret (strictEqTrue enabled)
      else ret false.

Definition isFeatureEnabled (h : Host) (featureName : string)
    (user : option UserIdentity) : M bool :=
  tryCatch
    (config <- getConfig h ;;
     evaluate h config featureName user)
    (fun error =>
       Logger_error ("Error evaluating feature " +:+ dq +:+ featureName +:+ dq +:+ ": "
                     +:+ message error) ;;
       ret false).

(** [featureNames.some((name) => isFeatureEnabled(name, user))] *)
Fixpoint isAnyFeatureEnabled (h : Host) (featureNames : list string)
    (user : option UserIdentity) : M bool :=
  match featureNames with
  | [] => ret false
  | name :: rest =>
      r <- isFeatureEnabled h name user ;;
      if r then ret true else isAnyFeatureEnabled h rest user
  end.

(** [featureNames.every((name) => isFeatureEnabled(name, user))] *)
Fixpoint areAllFeaturesEnabled (h : Host) (featureNames : list string)
    (user : option UserIdentity) : M bool :=
  match featureNames with
  | [] => ret true
  | name :: rest =>
      r <- isFeatureEnabled h name user ;;
      if r then areAllFeaturesEnabled h rest user else ret false
  end.

(** [Object.keys(v)]: throws on [undefined] and [null]; a built-in member
    has no enumerable property of its own. *)
Definition objectKeys (v : JsRt) : JsResult (list string) :=
  match v with
  | Undefined | Val JNull =>
      Throw (TypeError "Cannot convert undefined or null to object")
  | Builtin => Ok []
  | Val x => Ok (map fst (entries x))
  end.

(** [names.filter((name) => isFeatureEnabled(name, user))] *)
Fixpoint filterEnabled (h : Host) (names : list string)
    (user : option UserIdentity) : M (list string) :=
  match names with
  | [] => ret []
  | name :: rest =>
      r <- isFeatureEnabled h name user ;;
      kept <- filterEnabled h rest user ;;
      ret (if r then name :: kept else kept)
  end.

Definition getEnabledFeatures (h : Host) (user : option UserIdentity) :
    M (list string) :=
  tryCatch
    (config <- getConfig h ;;
     features <- lift (getProp (Val config) "features") ;;
     names <- lift (objectKeys features) ;;
     filterEnabled h names user)
    (fun error =>
       Logger_error ("Error getting enabled features: " +:+ message error) ;;
       ret []).

(** [config.features[featureName] || null] *)
Definition getFeatureConfig (h : Host) (featureName : string) : M JsRt :=
  tryCatch
    (config <- getConfig h ;;
     features <- lift (getProp (Val config) "features") ;;
     feature <- lift (getProp features featureName) ;;
     ret (if truthy feature then feature else Val JNull))
    (fun error =>
       Logger_error ("Error getting feature config for " +:+ dq +:+ featureName +:+ dq
                     +:+ ": " +:+ message error) ;;
       ret (Val JNull)).

Definition featureExists (h : Host) (featureName : string) : M bool :=
  tryCatch
    (config <- getConfig h ;;
     features <- lift (getProp (Val config) "features") ;;
     lift (hasProperty featureName features))
    (fun error =>
       Logger_error ("Error checking feature existence: " +:+ message error) ;;
       ret false).

Definition getAllFeatureNames (h : Host) : M (list string) :=
  tryCatch
    (config <- getConfig h ;;
     features <- lift (getProp (Val config) "features") ;;
     lift (objectKeys features))
    (fun error =>
       Logger_error ("Error getting feature names: " +:+ message error) ;;
       ret []).

(** [result[name] = value] on an object made by the literal [{}]: the key
    [__proto__] reaches the setter of [Object.prototype], which ignores a
    boolean, so no property is created for it. *)
Definition setFlag (name : string) (value : bool) (result : gmap string bool) :
    gmap string bool :=
  if String.eqb name "__proto__" then result else <[ name := value ]> result.

(** The loop of [getFeatureFlags], from the object built so far. *)
Fixpoint collectFlags (h : Host) (featureNames : list string)
    (user : option UserIdentity) (result : gmap string bool) : M (gmap string bool) :=
  match featureNames with
  | [] => ret result
  | name :: rest =>
      value <- isFeatureEnabled h name user ;;
      collectFlags h rest user (setFlag name value result)
  end.

Definition getFeatureFlags (h : Host) (featureNames : list string)
    (user : option UserIdentity) : M (gmap string bool) :=
  collectFlags h featureNames user ∅.

(** ** loader.ts *)

(** [b && c] where [c] is only evaluated when [b] holds. *)
Definition andAlso (b : bool) (c : JsResult bool) : JsResult bool :=
  if b then c else Ok false.

Definition quoted (name : string) : string := dq +:+ name +:+ dq.

Definition getFeatureFlagsPath (h : Host) : M string :=
  match process_env h with
  | None => throw (ReferenceError "process is not defined")
  | Some env =>
      match orElse (env !! "FEATURE_FLAGS_FILE") (env !! "FFXL_FILE") with
      | None | Some "" =>
          let defaultPath := path_join h (process_cwd h) "feature-flags.yaml" in
          Logger_info ("Using default feature flags file: " +:+ defaultPath) ;;
          ret defaultPath
      | Some envPath =>
          Logger_info ("Using feature flags file from environment: " +:+ envPath) ;;
          ret (if path_isAbsolute h envPath then envPath
               else path_join h (process_cwd h) envPath)
      end
  end.

(** [typeof v !== 'object' || v === null] *)
Definition notAnObject (v : JsRt) : bool :=
  negb (isType TObject v) || isNull v.

(** [ids.every((id) => typeof id === 'string')] on an array *)
Definition everyString (ids : JsRt) : bool :=
  match ids with
  | Val (JArr items) => forallb (fun id => isType TString (Val id)) items
  | _ => false
  end.

Definition validateFeatureConfig (name : string) (config : JsValue) : JsResult unit :=
  if notAnObject (Val config) then
    Throw (FeatureFlagValidationError ("Feature " +:+ quoted name +:+ " must be an object"))
  else
    hasEnabled <~ hasProperty "enabled" (Val config) ;;
    hasOnlyForUserIds <~ hasProperty "onlyForUserIds" (Val config) ;;
    if negb hasEnabled && negb hasOnlyForUserIds then
      Throw (FeatureFlagValidationError
               ("Feature " +:+ quoted name +:+ " must have either " +:+ quoted "enabled"
                +:+ " or " +:+ quoted "onlyForUserIds" +:+ " property"))
    else
      badEnabled <~ andAlso hasEnabled
                      (enabled <~ getProp (Val config) "enabled" ;;
                       Ok (negb (isType TBoolean enabled))) ;;
      if badEnabled then
        Throw (FeatureFlagValidationError
                 ("Feature " +:+ quoted name +:+ ": " +:+ quoted "enabled"
                  +:+ " must be a boolean"))
      else
        _ <~ (if hasOnlyForUserIds then
                onlyForUserIds <~ getProp (Val config) "onlyForUserIds" ;;
                if negb (isArray onlyForUserIds) then
                  Throw (FeatureFlagValidationError
                           ("Feature " +:+ quoted name +:+ ": " +:+ quoted "onlyForUserIds"
                            +:+ " must be an array"))
                else if negb (everyString onlyForUserIds) then
                  Throw (FeatureFlagValidationError
                           ("Feature " +:+ quoted name +:+ ": all items in "
                            +:+ quoted "onlyForUserIds" +:+ " must be strings"))
                else Ok tt
              else Ok tt) ;;
        hasComment <~ hasProperty "comment" (Val config) ;;
        badComment <~ andAlso hasComment
                        (comment <~ getProp (Val config) "comment" ;;
                         Ok (negb (isType TString comment))) ;;
        if badComment then
          Throw (FeatureFlagValidationError
                   ("Feature " +:+ quoted name +:+ ": " +:+ quoted "comment"
                    +:+ " must be a string"))
        else Ok tt.

(** [for (const [name, config] of ...) validateFeatureConfig(name, config)] *)
Fixpoint validateEach (l : list (string * JsValue)) : JsResult unit :=
  match l with
  | [] => Ok tt
  | (name, config) :: rest =>
      _ <~ validateFeatureConfig name config ;;
      validateEach rest
  end.

Definition entriesOf (v : JsRt) : list (string * JsValue) :=
  match v with
  | Val x => entries x
  | _ => []
  end.

(** [asserts data is FeatureFlagsConfig]: on success the document itself,
    now known to be a tree. *)
Definition validateConfig (data : JsRt) : JsResult JsValue :=
  match data with
  | Val (JObj _ as d) | Val (JArr _ as d) =>
      hasFeatures <~ hasProperty "features" data ;;
      if negb hasFeatures then
        Throw (FeatureFlagValidationError
                 ("Configuration must have a " +:+ quoted "features" +:+ " property"))
      else
        features <~ getProp data "features" ;;
        if notAnObject features then
          Throw (FeatureFlagValidationError (quoted "features" +:+ " must be an object"))
        else
          _ <~ validateEach (entriesOf features) ;;
          Ok d
  | _ => Throw (FeatureFlagValidationError "Configuration must be an object")
  end.

Definition loadFeatureFlags (h : Host) : M JsValue :=
  match detectEnvironment h with
  | browser => throw (Error "loadFeatureFlags() can only be called in Node.js environment")
  | node =>
      filePath <- getFeatureFlagsPath h ;;
      tryCatch
        (if negb (fs_existsSync h filePath) then
           throw (FeatureFlagValidationError ("Feature flags file not found: " +:+ filePath))
         else
           fileContents <- lift (fs_readFileSync h filePath) ;;
           data <- lift (yaml_load h fileContents) ;;
           config <- lift (validateConfig data) ;;
           Logger_info ("Successfully loaded feature flags from " +:+ filePath) ;;
           features <- lift (getProp (Val config) "features") ;;
           Logger_info ("Loaded " +:+ digits (Z.of_nat (length (entriesOf features)))
                        +:+ " feature flag(s)") ;;
           ret config)
        (fun error =>
           if isValidationError error then
             Logger_error ("Feature flags validation failed: " +:+ message error) ;;
             throw error
           else if isYAMLException error then
             Logger_error ("Failed to parse feature flags YAML: " +:+ message error) ;;
             throw (FeatureFlagValidationError ("Invalid YAML syntax: " +:+ message error))
           else
             Logger_error ("Failed to load feature flags: " +:+ message error) ;;
             throw error)
  end.

Definition loadFeatureFlagsAsString (h : Host) : M string :=
  config <- loadFeatureFlags h ;;
  ret (JSON_stringify h config).

(** ** The JSON object

    [JSON.stringify(v)] and [JSON.parse(text)] of the language (ECMAScript,
    sections SerializeJSONProperty, QuoteJSONString and the JSON grammar), on
    trees.  Strings are sequences of code units below 256, copied as they are
    except for the escapes; numbers are integers, written in decimal.
    [parse] reads the texts of that fragment: a number with a fraction or an
    exponent, or a [\u] escape for a code unit above 127, is refused. *)
Module Json.

Definition quoteChar : ascii := Ascii.ascii_of_nat 34.
Definition backslash : ascii := Ascii.ascii_of_nat 92.

Definition hexChar (n : nat) : ascii :=
  Ascii.ascii_of_nat (if (n <? 10)%nat then 48 + n else 87 + n).

Definition hexValue (c : ascii) : option nat :=
  let n := Ascii.nat_of_ascii c in
  if (48 <=? n)%nat && (n <=? 57)%nat then Some (n - 48)%nat
  else if (97 <=? n)%nat && (n <=? 102)%nat then Some (n - 87)%nat
  else if (65 <=? n)%nat && (n <=? 70)%nat then Some (n - 55)%nat
  else None.

(** QuoteJSONString, one code unit at a time: the quote and the backslash
    are escaped, control characters are written as [\b], [\f], [\n], [\r],
    [\t] or [\u00XX], everything else is copied. *)
Definition escapeChar (c : ascii) : string :=
  let n := Ascii.nat_of_ascii c in
  if (n =? 34)%nat then String backslash (String quoteChar EmptyString)
  else if (n =? 92)%nat then String backslash (String backslash EmptyString)
  else if (n =? 8)%nat then String backslash "b"
  else if (n =? 12)%nat then String backslash "f"
  else if (n =? 10)%nat then String backslash "n"
  else if (n =? 13)%nat then String backslash "r"
  else if (n =? 9)%nat then String backslash "t"
  else if (n <? 32)%nat then
    String backslash
      (String "u" (String "0" (String "0"
         (String (hexChar (n / 16)) (String (hexChar (n mod 16)) EmptyString)))))
  else String c EmptyString.

Fixpoint escape (s : string) : string :=
  match s with
  | EmptyString => EmptyString
  | String c s' => escapeChar c +:+ escape s'
  end.

Definition literal (s : string) : string :=
  String quoteChar (escape s +:+ String quoteChar EmptyString).

Definition joinWith {A : Type} (f : A -> string) : list A -> string :=
  fix join (l : list A) : string :=
    match l with
    | [] => ""
    | [x] => f x
    | x :: l' => f x +:+ "," +:+ join l'
    end.

(** [JSON.stringify(v)] on a tree: no white space, properties in
    enumeration order. *)
Fixpoint stringify (v : JsValue) : string :=
  match v with
  | JNull => "null"
  | JBool b => if b then "true" else "false"
  | JNum n => digits n
  | JStr s => literal s
  | JArr items => "[" +:+ joinWith stringify items +:+ "]"
  | JObj props =>
      "{" +:+
      joinWith (fun entry : string * JsValue =>
                  let (k, x) := entry in literal k +:+ ":" +:+ stringify x) props
      +:+ "}"
  end.

Definition isSpace (c : ascii) : bool :=
  Ascii.eqb c " "%char || Ascii.eqb c (Ascii.ascii_of_nat 10)
  || Ascii.eqb c (Ascii.ascii_of_nat 13) || Ascii.eqb c (Ascii.ascii_of_nat 9).

Fixpoint skipSpace (s : string) : string :=
  match s with
  | String c s' => if isSpace c then skipSpace s' else s
  | EmptyString => s
  end.

Fixpoint stripPrefix (p s : string) : option string :=
  match p, s with
  | EmptyString, _ => Some s
  | String a p', String b s' => if Ascii.eqb a b then stripPrefix p' s' else None
  | _, _ => None
  end.

(** What a backslash followed by [d] stands for. *)
Definition unescape (d : ascii) : option ascii :=
  let n := Ascii.nat_of_ascii d in
  if (n =? 34)%nat then Some quoteChar
  else if (n =? 92)%nat then Some backslash
  else if (n =? 47)%nat then Some "/"%char
  else if (n =? 98)%nat then Some (Ascii.ascii_of_nat 8)
  else if (n =? 102)%nat then Some (Ascii.ascii_of_nat 12)
  else if (n =? 110)%nat then Some (Ascii.ascii_of_nat 10)
  else if (n =? 114)%nat then Some (Ascii.ascii_of_nat 13)
  else if (n =? 116)%nat then Some (Ascii.ascii_of_nat 9)
  else None.

Definition hex4 (a b c d : ascii) : option nat :=
  match hexValue a, hexValue b, hexValue c, hexValue d with
  | Some x, Some y, Some z, Some w => Some (((x * 16 + y) * 16 + z) * 16 + w)%nat
  | _, _, _, _ => None
  end.

Definition consTo (c : ascii) (r : option (string * string)) : option (string * string) :=
  match r with
  | Some (t, rest) => Some (String c t, rest)
  | None => None
  end.

(** The text after an opening quote, up to the closing one.  Control
    characters must be escaped.  A [\uXXXX] escape is read when it denotes a
    code unit below 128; the others are outside the strings modelled here. *)
Fixpoint readString (s : string) : option (string * string) :=
  match s with
  | EmptyString => None
  | String c s' =>
      if Ascii.eqb c quoteChar then Some (EmptyString, s')
      else if Ascii.eqb c backslash then
        match s' with
        | String d s'' =>
            match unescape d with
            | Some x => consTo x (readString s'')
            | None =>
                if Ascii.eqb d "u"%char then
                  match s'' with
                  | String h1 (String h2 (String h3 (String h4 s3))) =>
                      match hex4 h1 h2 h3 h4 with
                      | Some n =>
                          if (n <? 128)%nat
                          then consTo (Ascii.ascii_of_nat n) (readString s3)
                          else None
                      | None => None
                      end
                  | _ => None
                  end
                else None
            end
        | EmptyString => None
        end
      else if (Ascii.nat_of_ascii c <? 32)%nat then None
      else consTo c (readString s')
  end.

Definition isDigit (c : ascii) : bool :=
  let n := Ascii.nat_of_ascii c in (48 <=? n)%nat && (n <=? 57)%nat.

Fixpoint takeDigits (s : string) : string * string :=
  match s with
  | String c s' =>
      if isDigit c then let (ds, rest) := takeDigits s' in (String c ds, rest)
      else (EmptyString, s)
  | EmptyString => (EmptyString, s)
  end.

(** The integer part of a JSON number: [0], or digits that do not start
    with [0]. *)
Definition wellFormedDigits (ds : string) : bool :=
  match ds with
  | EmptyString => false
  | String "0" EmptyString => true
  | String c _ => negb (Ascii.eqb c "0"%char)
  end.

(** Whether a number token can end before [rest]: not before a fraction or
    an exponent, which are outside the numbers modelled here. *)
Definition endsNumber (rest : string) : bool :=
  match rest with
  | EmptyString => true
  | String c _ =>
      negb (isDigit c || Ascii.eqb c "."%char || Ascii.eqb c "e"%char
            || Ascii.eqb c "E"%char)
  end.

Definition readNumber (s : string) : option (Z * string) :=
  let (negative, s1) :=
    match s with
    | String "-" r => (true, r)
    | _ => (false, s)
    end in
  let (ds, rest) := takeDigits s1 in
  if wellFormedDigits ds && endsNumber rest then
    match DecimalString.NilEmpty.uint_of_string ds with
    | Some d => Some (if negative then - Z.of_uint d else Z.of_uint d, rest)
    | None => None
    end
  else None.

(** The number a key stands for when it is an array index: a canonical
    numeral below 2^32 - 1. *)
Definition arrayIndex (k : string) : option N :=
  if wellFormedDigits k then
    match DecimalString.NilEmpty.uint_of_string k with
    | Some d => if (N.of_uint d <? 4294967295)%N then Some (N.of_uint d) else None
    | None => None
    end
  else None.

Fixpoint replaceValue (k : string) (v : JsValue) (props : list (string * JsValue)) :
    list (string * JsValue) :=
  match props with
  | [] => []
  | (k', v') :: rest =>
      if String.eqb k k' then (k', v) :: rest else (k', v') :: replaceValue k v rest
  end.

Fixpoint insertIndex (n : N) (k : string) (v : JsValue)
    (props : list (string * JsValue)) : list (string * JsValue) :=
  match props with
  | [] => [(k, v)]
  | (k', v') :: rest =>
      match arrayIndex k' with
      | Some m => if (m <? n)%N then (k', v') :: insertIndex n k v rest
                  else (k, v) :: props
      | None => (k, v) :: props
      end
  end.

(** CreateDataProperty on an ordinary object, seen through its enumeration
    order: an existing key keeps its place and takes the new value; a new
    array index goes among the indices, in ascending order, before all other
    keys; any other new key goes last. *)
Definition define (k : string) (v : JsValue) (props : list (string * JsValue)) :
    list (string * JsValue) :=
  if memberOf k (map fst props) then replaceValue k v props
  else match arrayIndex k with
       | Some n => insertIndex n k v props
       | None => (props ++ [(k, v)])%list
       end.


Inductive Mode : Type :=
| AValue
| Items (acc : list JsValue)
| Props (acc : list (string * JsValue)).

Fixpoint read (fuel : nat) (m : Mode) (s : string) : option (JsValue * string) :=
  match fuel with
  | O => None
  | S fuel' =>
      let s := skipSpace s in
      match m with
      | AValue =>
          match s with
          | String c r =>
              if Ascii.eqb c quoteChar then
                match readString r with
                | Some (t, r') => Some (JStr t, r')
                | None => None
                end
              else if Ascii.eqb c "["%char then
                match skipSpace r with
                | String "]" r' => Some (JArr [], r')
                | _ => read fuel' (Items []) r
                end
              else if Ascii.eqb c "{"%char then
                match skipSpace r with
                | String "}" r' => Some (JObj [], r')
                | _ => read fuel' (Props []) r
                end
              else if Ascii.eqb c "-"%char || isDigit c then
                match readNumber s with
                | Some (n, r') => Some (JNum n, r')
                | None => None
                end
              else
                match stripPrefix "null" s, stripPrefix "true" s, stripPrefix "false" s with
                | Some r', _, _ => Some (JNull, r')
                | _, Some r', _ => Some (JBool true, r')
                | _, _, Some r' => Some (JBool false, r')
                | _, _, _ => None
                end
          | EmptyString => None
          end
      | Items acc =>
          match read fuel' AValue s with
          | Some (v, r) =>
              match skipSpace r with
              | String "," r' => read fuel' (Items (acc ++ [v])) r'
              | String "]" r' => Some (JArr (acc ++ [v]), r')
              | _ => None
              end
          | None => None
          end
      | Props acc =>
          match s with
          | String c r =>
              if Ascii.eqb c quoteChar then
                match readString r with
                | Some (k, r1) =>
                    match skipSpace r1 with
                    | String ":" r2 =>
                        match read fuel' AValue r2 with
                        | Some (v, r3) =>
                            match skipSpace r3 with
                            | String "," r4 => read fuel' (Props (define k v acc)) r4
                            | String "}" r4 => Some (JObj (define k v acc), r4)
                            | _ => None
                            end
                        | None => None
                        end
                    | _ => None
                    end
                | None => None
                end
              else None
          | EmptyString => None
          end
      end
  end.

(** [JSON.parse(text)], without reviver.  The fuel bounds the nesting of
    the calls of the reader, each of which consumes a character or is
    followed by one that does. *)
Definition parse (text : string) : JsResult JsValue :=
  match read (2 * String.length text + 2) AValue text with
  | Some (v, r) =>
      match skipSpace r with
      | EmptyString => Ok v
      | _ => Throw (SyntaxError "Unexpected non-whitespace character after JSON")
      end
  | None => Throw (SyntaxError "Unexpected token in JSON")
  end.


End Json.

(** ** A concrete host

    A Node.js-like host over an in-memory file system, whose [JSON] object is
    the one above.  YAML being a superset of JSON, the same reader serves as
    the YAML loader of this host.  It is used to run the functions on
    examples. *)
Module Demo.

Definition stringify : JsValue -> string := Json.stringify.

Definition parse : string -> JsResult JsValue := Json.parse.

Definition digitValue (c : Ascii.ascii) : option Z :=
  let n := Ascii.nat_of_ascii c in
  if (48 <=? n)%nat && (n <=? 57)%nat then Some (Z.of_nat (n - 48)) else None.

Fixpoint readDigits (acc : Z) (s : string) : Z * string :=
  match s with
  | String c s' =>
      match digitValue c with
      | Some d => readDigits (10 * acc + d) s'
      | None => (acc, s)
      end
  | EmptyString => (acc, s)
  end.

Definition startsWithDigit (s : string) : bool :=
  match s with
  | String c _ => bool_decide (is_Some (digitValue c))
  | EmptyString => false
  end.

Definition positiveNumeral (s : string) : bool :=
  startsWithDigit s &&
  match readDigits 0 s with
  | (n, EmptyString) => Z.ltb 0 n
  | _ => false
  end.

Definition host (env files : gmap string string) : Host :=
  {| has_window := false;
     has_document := false;
     window_DEV := false;
     process_versions_node := true;
     process_env := Some env;
     process_cwd := "/app";
     path_isAbsolute := String.prefix "/";
     path_join := fun a b => a +:+ "/" +:+ b;
     fs_existsSync := fun p => bool_decide (is_Some (files !! p));
     fs_readFileSync := fun p =>
       match files !! p with
       | Some text => Ok text
       | None => Throw (Error ("ENOENT: no such file or directory, open '" +:+ p +:+ "'"))
       end;
     yaml_load := fun text =>
       match parse text with
       | Ok v => Ok (Val v)
       | Throw e => Throw (YAMLException (message e))
       end;
     JSON_parse := parse;
     JSON_stringify := stringify;
     Number_gt0 := positiveNumeral |}.

(** The configuration of the evaluator's test-suite. *)
Definition testConfig : JsValue :=
  JObj [("features", JObj [
    ("test_feature_enabled",
      JObj [("enabled", JBool true); ("comment", JStr "Test feature that is enabled")]);
    ("test_feature_disabled",
      JObj [("enabled", JBool false); ("comment", JStr "Test feature that is disabled")]);
    ("test_feature_user_specific",
      JObj [("onlyForUserIds", JArr [JStr "user-123"; JStr "user-456"]);
            ("comment", JStr "Feature for specific users")]);
    ("test_feature_combined",
      JObj [("enabled", JBool false); ("onlyForUserIds", JArr [JStr "user-789"]);
            ("comment", JStr "Combined config - user list takes precedence")])])].

Definition testHost : Host :=
  host {[ "FFXL_CONFIG" := stringify testConfig ]} ∅.

Definition withId (id : string) : option UserIdentity :=
  Some {| userId := Some id; handle := None; email := None |}.

(** Result of a computation started right after module load. *)
Definition run {A : Type} (h : Host) (m : M A) : JsResult A :=
  fst (m (initialState h)).

End Demo.

(** * Notions used in the statements *)

(** States that differ only in what has been written. *)
Definition sameModule (s s' : State) : Prop :=
  cachedConfig s' = cachedConfig s
  /\ Logger_env s' = Logger_env s
  /\ Logger_isDev s' = Logger_isDev s.

Definition sameLogger (s s' : State) : Prop :=
  Logger_env s' = Logger_env s /\ Logger_isDev s' = Logger_isDev s.

(** A computation is quiet when its result does not depend on the state and
    it changes nothing but the output. *)
Definition quiet {A : Type} (m : M A) : Prop :=
  exists r, forall s, fst (m s) = r /\ sameModule s (snd (m s)).

(** The outcome of the evaluation on a configuration: a boolean or a throw. *)
Definition verdict (h : Host) (config : JsValue) (featureName : string)
    (user : option UserIdentity) : JsResult bool :=
  fst (evaluate h config featureName user (initialState h)).

(** The same with a throw read as [false], as the [catch] does. *)
Definition decision (h : Host) (config : JsValue) (featureName : string)
    (user : option UserIdentity) : bool :=
  match verdict h config featureName user with
  | Ok b => b
  | Throw _ => false
  end.

(** What a load from the transport variable produces. *)
Definition loaded (h : Host) : JsValue :=
  match configString h with
  | None | Some "" => emptyConfig
  | Some text =>
      match JSON_parse h text with
      | Ok v => v
      | Throw _ => emptyConfig
      end
  end.

(** The configuration [getConfig] hands out in a state. *)
Definition configOf (h : Host) (s : State) : JsValue :=
  if truthy (Val (cachedConfig s)) then cachedConfig s else loaded h.

(** The boolean a call [isFeatureEnabled(name, user)] made in state [s]
    returns. *)
Definition answer (h : Host) (s : State) (featureName : string)
    (user : option UserIdentity) : bool :=
  match fst (isFeatureEnabled h featureName user s) with
  | Ok b => b
  | Throw _ => false
  end.

(** [user?.userId] *)
Definition userIdOf (user : option UserIdentity) : option string :=
  user ≫= userId.

(** The rule stored for a feature name: the own property [name] of the own
    property [features] of the configuration. *)
Definition ruleOf (config : JsValue) (featureName : string) : option JsValue :=
  ownProperty config "features" ≫= (fun features => ownProperty features featureName).

(** A value of [onlyForUserIds] that is a list with at least one element, or
    a string with at least one character. *)
Definition nonEmptyListOrString (x : JsValue) : bool :=
  match x with
  | JArr (_ :: _) => true
  | JStr (String _ _) => true
  | _ => false
  end.

Definition isString (x : JsValue) : bool :=
  match x with JStr _ => true | _ => false end.

(** The shape of a FeatureRule in the words of the data model: an object
    with [enabled] or [onlyForUserIds]; [enabled], when present, a boolean;
    [onlyForUserIds], when present, a list of strings; [comment], when
    present, a string. *)
Definition wellShaped (rule : JsValue) : bool :=
  negb (notAnObject (Val rule))
  && (bool_decide (is_Some (ownProperty rule "enabled"))
      || bool_decide (is_Some (ownProperty rule "onlyForUserIds")))
  && match ownProperty rule "enabled" with
     | None | Some (JBool _) => true
     | Some _ => false
     end
  && match ownProperty rule "onlyForUserIds" with
     | None => true
     | Some (JArr ids) => forallb isString ids
     | Some _ => false
     end
  && match ownProperty rule "comment" with
     | None | Some (JStr _) => true
     | Some _ => false
     end.

(** The violations of a feature entry that the validator is required to
    reject. *)
Inductive Violation (rule : JsValue) : Prop :=
| missing_both :
    ownProperty rule "enabled" = None ->
    ownProperty rule "onlyForUserIds" = None ->
    Violation rule
| comment_not_string (c : JsValue) :
    ownProperty rule "comment" = Some c ->
    isString c = false ->
    Violation rule
| id_not_string (ids : list JsValue) (x : JsValue) :
    ownProperty rule "onlyForUserIds" = Some (JArr ids) ->
    In x ids ->
    isString x = false ->
    Violation rule.

(** The steps of [evaluate] once the feature has been read and found truthy
    or not, without the warning. *)
Definition judge (h : Host) (feature : JsRt) (user : option UserIdentity) :
    JsResult bool :=
  if negb (truthy feature) then Ok false
  else
    onlyForUserIds <~ getProp feature "onlyForUserIds" ;;
    restricted <~
      (if truthy onlyForUserIds then
         len <~ getProp onlyForUserIds "length" ;;
         greaterThanZero h len
       else Ok false) ;;
    if restricted then
      match userIdOf user with
      | None | Some "" => Ok false
      | Some id => callIncludes onlyForUserIds id
      end
    else
      hasEnabled <~ hasProperty "enabled" feature ;;
      if hasEnabled then
        enabled <~ getProp feature "enabled" ;;
        Ok (strictEqTrue enabled)
      else Ok false.

(** The [try] block of [isFeatureEnabled]. *)
Definition attempt (h : Host) (featureName : string) (user : option UserIdentity) :
    M bool :=
  config <- getConfig h ;;
  evaluate h config featureName user.

(** Neither transport variable is defined (or there is no [process.env]). *)
Definition transportUndefined (h : Host) : Prop :=
  forall env, process_env h = Some env ->
    env !! "FEATURE_FLAGS_CONFIG" = None /\ env !! "FFXL_CONFIG" = None.

(** The transport string is rejected by [JSON.parse]. *)
Definition transportUnparseable (h : Host) : Prop :=
  exists text e, configString h = Some text /\ JSON_parse h text = Throw e.

(** [Object.keys(config.features)], or nothing when that throws. *)
Definition keysOf (config : JsValue) : list string :=
  match (features <~ getProp (Val config) "features" ;; objectKeys features) with
  | Ok names => names
  | Throw _ => []
  end.

(** The names [getAllFeatureNames()] returns in a state. *)
Definition namesAt (h : Host) (s : State) : list string :=
  match fst (getAllFeatureNames h s) with
  | Ok names => names
  | Throw _ => []
  end.

(** What [config.features[name]] evaluates to. *)
Definition lookupFeature (config : JsValue) (featureName : string) : JsResult JsRt :=
  features <~ getProp (Val config) "features" ;;
  getProp features featureName.

(** What the [catch] of [loadFeatureFlags] throws for a caught error. *)
Definition rethrown (e : JsError) : JsError :=
  if isValidationError e then e
  else if isYAMLException e then
    FeatureFlagValidationError ("Invalid YAML syntax: " +:+ message e)
  else e.

(** What the [try] and [catch] of [loadFeatureFlags] amount to for a path,
    the logging left out. *)
Definition loadOutcome (h : Host) (filePath : string) : JsResult JsValue :=
  if negb (fs_existsSync h filePath) then
    Throw (FeatureFlagValidationError ("Feature flags file not found: " +:+ filePath))
  else
    match (fileContents <~ fs_readFileSync h filePath ;;
           data <~ yaml_load h fileContents ;;
           validateConfig data) with
    | Ok config => Ok config
    | Throw e => Throw (rethrown e)
    end.




Definition startsNumber (s : string) : bool :=
  match s with
  | String c _ => Ascii.eqb c "-"%char || Json.isDigit c
  | EmptyString => false
  end.



Definition entry (e : string * JsValue) : string :=
  let (k, x) := e in Json.literal k +:+ ":" +:+ Json.stringify x.

(** Values for the examples. *)
Module Fixtures.

Definition user (id : string) : option UserIdentity :=
  Some {| userId := Some id; handle := None; email := None |}.

Definition oneFeature (rule : JsValue) : JsValue :=
  JObj [("features", JObj [("f", rule)])].

Definition cached (h : Host) (config : JsValue) : State :=
  setCache config (initialState h).

Definition bare : Host := Demo.host ∅ ∅.

(** A build host whose default file holds the configuration of the
    test-suite, and the run-time host that receives it. *)
Definition build : Host :=
  Demo.host ∅ {[ "/app/feature-flags.yaml" := Demo.stringify Demo.testConfig ]}.


(** A build host whose file is not YAML. *)
Definition broken : Host :=
  Demo.host ∅ {[ "/app/feature-flags.yaml" := "{oops" ]}.

(** A host whose transport variable does not hold JSON. *)
Definition garbled : Host := Demo.host {[ "FFXL_CONFIG" := "{oops" ]} ∅.

End Fixtures.

(** * Properties *)

(** ** The test-suite of the evaluator, run on the concrete host *)

Example test_enabled :
  Demo.run Demo.testHost (isFeatureEnabled Demo.testHost "test_feature_enabled" None) = Ok true.
Proof. vm_compute. reflexivity. Qed.

Example test_disabled :
  Demo.run Demo.testHost (isFeatureEnabled Demo.testHost "test_feature_disabled" None) = Ok false.
Proof. vm_compute. reflexivity. Qed.

Example test_non_existent :
  Demo.run Demo.testHost (isFeatureEnabled Demo.testHost "non_existent" None) = Ok false.
Proof. vm_compute. reflexivity. Qed.

Example test_user_specific :
  Demo.run Demo.testHost
    (isFeatureEnabled Demo.testHost "test_feature_user_specific" None) = Ok false
  /\ Demo.run Demo.testHost
       (isFeatureEnabled Demo.testHost "test_feature_user_specific" (Demo.withId "user-123"))
     = Ok true
  /\ Demo.run Demo.testHost
       (isFeatureEnabled Demo.testHost "test_feature_user_specific" (Demo.withId "user-999"))
     = Ok false.
Proof. vm_compute. auto. Qed.

Example test_combined :
  Demo.run Demo.testHost (isFeatureEnabled Demo.testHost "test_feature_combined" None)
  = Ok false
  /\ Demo.run Demo.testHost
       (isFeatureEnabled Demo.testHost "test_feature_combined" (Demo.withId "user-789"))
     = Ok true
  /\ Demo.run Demo.testHost
       (isFeatureEnabled Demo.testHost "test_feature_combined" (Demo.withId "user-999"))
     = Ok false.
Proof. vm_compute. auto. Qed.

Example test_any_all :
  Demo.run Demo.testHost
    (isAnyFeatureEnabled Demo.testHost ["test_feature_enabled"; "test_feature_disabled"] None)
  = Ok true
  /\ Demo.run Demo.testHost
       (isAnyFeatureEnabled Demo.testHost ["test_feature_disabled"; "non_existent"] None)
     = Ok false
  /\ Demo.run Demo.testHost
       (areAllFeaturesEnabled Demo.testHost
          ["test_feature_enabled"; "test_feature_user_specific"] (Demo.withId "user-123"))
     = Ok true
  /\ Demo.run Demo.testHost
       (areAllFeaturesEnabled Demo.testHost
          ["test_feature_enabled"; "test_feature_disabled"] None)
     = Ok false.
Proof. vm_compute. auto. Qed.

Example test_getEnabledFeatures :
  Demo.run Demo.testHost (getEnabledFeatures Demo.testHost None)
  = Ok ["test_feature_enabled"]
  /\ Demo.run Demo.testHost (getEnabledFeatures Demo.testHost (Demo.withId "user-123"))
     = Ok ["test_feature_enabled"; "test_feature_user_specific"].
Proof. vm_compute. auto. Qed.

Example test_featureExists :
  Demo.run Demo.testHost (featureExists Demo.testHost "test_feature_enabled") = Ok true
  /\ Demo.run Demo.testHost (featureExists Demo.testHost "non_existent") = Ok false.
Proof. vm_compute. auto. Qed.

Example test_getAllFeatureNames :
  Demo.run Demo.testHost (getAllFeatureNames Demo.testHost)
  = Ok ["test_feature_enabled"; "test_feature_disabled"; "test_feature_user_specific";
        "test_feature_combined"].
Proof. vm_compute. reflexivity. Qed.

Example test_getFeatureFlags :
  Demo.run Demo.testHost
    (getFeatureFlags Demo.testHost ["test_feature_enabled"; "test_feature_disabled"] None)
  = Ok {[ "test_feature_enabled" := true; "test_feature_disabled" := false ]}
  /\ Demo.run Demo.testHost
       (getFeatureFlags Demo.testHost
          ["test_feature_enabled"; "test_feature_user_specific"] (Demo.withId "user-123"))
     = Ok {[ "test_feature_enabled" := true; "test_feature_user_specific" := true ]}.
Proof. vm_compute. auto. Qed.

(** ** Comparisons that throw *)

(** The [length] of [onlyForUserIds] is whatever the tree holds.  When it is
    an object with an own property [toString], the comparison with zero
    throws; [isFeatureEnabled] catches the error, writes a line and answers
    [false], although [enabled] is [true]. *)
Example length_without_primitive :
  let rule :=
    JObj [("enabled", JBool true);
          ("onlyForUserIds", JObj [("length", JObj [("toString", JNum 1)])])] in
  let config := Fixtures.oneFeature rule in
  verdict Fixtures.bare config "f" None
  = Throw (TypeError "Cannot convert object to primitive value")
  /\ exists line,
       isFeatureEnabled Fixtures.bare "f" None (Fixtures.cached Fixtures.bare config)
       = (Ok false,
          addOutput (stderr_write line) (Fixtures.cached Fixtures.bare config)).
Proof. vm_compute. split; [reflexivity | eexists; reflexivity]. Qed.

(** An own [valueOf] does not get in the way, and a [length] that is a list
    goes through its joined elements. *)
Example length_with_primitive :
  verdict Fixtures.bare
    (Fixtures.oneFeature
       (JObj [("enabled", JBool true);
              ("onlyForUserIds", JObj [("length", JObj [("valueOf", JNum 1)])])]))
    "f" None
  = Ok true
  /\ verdict Fixtures.bare
       (Fixtures.oneFeature
          (JObj [("enabled", JBool true);
                 ("onlyForUserIds", JObj [("length", JArr [JArr [JNum 3]])])]))
       "f" (Fixtures.user "u")
     = Throw (TypeError "includes is not a function").
Proof. vm_compute. auto. Qed.

(** ** The JSON object on examples *)

Example parse_white_space :
  Json.parse " [ 1 , -2 ,true , null ] " = Ok (JArr [JNum 1; JNum (-2); JBool true; JNull]).
Proof. vm_compute. reflexivity. Qed.

Example parse_number_grammar :
  Json.parse "01" = Throw (SyntaxError "Unexpected token in JSON")
  /\ Json.parse "-" = Throw (SyntaxError "Unexpected token in JSON")
  /\ Json.parse "[1,]" = Throw (SyntaxError "Unexpected token in JSON")
  /\ Json.parse "1 2"
     = Throw (SyntaxError "Unexpected non-whitespace character after JSON").
Proof. vm_compute. auto. Qed.

(** Control characters are written as escapes and read back. *)
Example stringify_escapes :
  let text := String (Ascii.ascii_of_nat 1) (String (Ascii.ascii_of_nat 10) "a\") in
  Json.stringify (JStr text)
  = String Json.quoteChar ("\u0001\na\\" +:+ String Json.quoteChar "")
  /\ Json.parse (Json.stringify (JStr text)) = Ok (JStr text).
Proof. vm_compute. auto. Qed.

(** A parsed object enumerates array indices first, and a key written twice
    keeps its first place and its last value: a tree that lists properties
    otherwise is not the image of an object, and is not read back. *)
Example parse_property_order :
  Json.parse
    (Json.stringify (JObj [("b", JNum 1); ("1", JNull); ("b", JNum 2); ("0", JArr [])]))
  = Ok (JObj [("0", JArr []); ("1", JNull); ("b", JNum 2)]).
Proof. vm_compute. reflexivity. Qed.

(** ** Quiet computations *)

Lemma sameModule_refl s : sameModule s s.
Proof. repeat split. Qed.

Lemma sameModule_trans s1 s2 s3 :
  sameModule s1 s2 -> sameModule s2 s3 -> sameModule s1 s3.
Proof.
  intros (H1 & H2 & H3) (K1 & K2 & K3).
  repeat split; congruence.
Qed.

Lemma sameModule_addOutput o s : sameModule s (addOutput o s).
Proof. repeat split. Qed.

Lemma quiet_ret {A : Type} (a : A) : quiet (ret a).
Proof. exists (Ok a). intros s. split; [reflexivity | apply sameModule_refl]. Qed.

Lemma quiet_lift {A : Type} (r : JsResult A) : quiet (lift r).
Proof. exists r. intros s. split; [reflexivity | apply sameModule_refl]. Qed.

Lemma quiet_bind {A B : Type} (m : M A) (f : A -> M B) :
  quiet m -> (forall a, quiet (f a)) -> quiet (bind m f).
Proof.
  intros [r Hm] Hf. destruct r as [a | e].
  - destruct (Hf a) as [rb Hb]. exists rb. intros s.
    unfold bind. destruct (Hm s) as [E S1]. destruct (m s) as [r' s']. simpl in *.
    subst r'. destruct (Hb s') as [E' S2]. split; [exact E' |].
    eapply sameModule_trans; eassumption.
  - exists (Throw e). intros s.
    unfold bind. destruct (Hm s) as [E S1]. destruct (m s) as [r' s']. simpl in *.
    subst r'. simpl. auto.
Qed.

Lemma quiet_Logger_warn msg : quiet (Logger_warn msg).
Proof.
  exists (Ok tt). intros s. unfold Logger_warn.
  destruct (Logger_isDev s), (Logger_env s); simpl;
    split; try reflexivity; try apply sameModule_refl; apply sameModule_addOutput.
Qed.

Lemma quiet_Logger_info msg : quiet (Logger_info msg).
Proof.
  exists (Ok tt). intros s. unfold Logger_info.
  destruct (Logger_isDev s), (Logger_env s); simpl;
    split; try reflexivity; try apply sameModule_refl; apply sameModule_addOutput.
Qed.

Lemma quiet_Logger_error msg : quiet (Logger_error msg).
Proof.
  exists (Ok tt). intros s. unfold Logger_error.
  destruct (Logger_env s); simpl; split; try reflexivity; apply sameModule_addOutput.
Qed.

Lemma quiet_run {A : Type} (m : M A) (a : A) :
  quiet m -> (forall s, fst (m s) = Ok a) ->
  forall s, exists s', m s = (Ok a, s') /\ sameModule s s'.
Proof.
  intros [r Hr] Ha s. destruct (Hr s) as [_ S1]. specialize (Ha s).
  destruct (m s) as [r' s']. simpl in *. subst r'. eauto.
Qed.

Lemma Logger_warn_run msg s :
  exists s', Logger_warn msg s = (Ok tt, s') /\ sameModule s s'.
Proof.
  apply quiet_run; [apply quiet_Logger_warn |].
  intros s0. unfold Logger_warn. destruct (Logger_isDev s0), (Logger_env s0); reflexivity.
Qed.

Lemma Logger_info_run msg s :
  exists s', Logger_info msg s = (Ok tt, s') /\ sameModule s s'.
Proof.
  apply quiet_run; [apply quiet_Logger_info |].
  intros s0. unfold Logger_info. destruct (Logger_isDev s0), (Logger_env s0); reflexivity.
Qed.

Lemma Logger_error_run msg s :
  exists s', Logger_error msg s = (Ok tt, s') /\ sameModule s s'.
Proof.
  apply quiet_run; [apply quiet_Logger_error |].
  intros s0. unfold Logger_error. destruct (Logger_env s0); reflexivity.
Qed.

Lemma quiet_evaluate h config featureName user :
  quiet (evaluate h config featureName user).
Proof.
  unfold evaluate.
  apply quiet_bind; [apply quiet_lift | intros features].
  apply quiet_bind; [apply quiet_lift | intros feature].
  destruct (negb (truthy feature)).
  { apply quiet_bind; [apply quiet_Logger_warn | intros _; apply quiet_ret]. }
  apply quiet_bind; [apply quiet_lift | intros ids].
  apply quiet_bind.
  { destruct (truthy ids); [| apply quiet_ret].
    apply quiet_bind; [apply quiet_lift | intros len; apply quiet_lift]. }
  intros restricted. destruct restricted.
  - destruct (user ≫= userId) as [[| c id] |];
      try apply quiet_ret; apply quiet_lift.
  - apply quiet_bind; [apply quiet_lift | intros hasEnabled].
    destruct hasEnabled; [| apply quiet_ret].
    apply quiet_bind; [apply quiet_lift | intros enabled; apply quiet_ret].
Qed.

Lemma evaluate_verdict h config featureName user s :
  exists s',
    evaluate h config featureName user s = (verdict h config featureName user, s')
    /\ sameModule s s'.
Proof.
  destruct (quiet_evaluate h config featureName user) as [r Hr].
  unfold verdict. destruct (Hr s) as [E1 S1]. destruct (Hr (initialState h)) as [E2 _].
  destruct (evaluate h config featureName user s) as [r' s']. simpl in *.
  exists s'. split; [congruence | exact S1].
Qed.

(** ** The configuration store *)

Lemma getConfig_cached h s :
  truthy (Val (cachedConfig s)) = true ->
  getConfig h s = (Ok (cachedConfig s), s).
Proof.
  intros H. unfold getConfig, bind, readCache. rewrite H. reflexivity.
Qed.

Lemma getConfig_spec h s :
  exists s',
    getConfig h s = (Ok (configOf h s), s')
    /\ cachedConfig s' = configOf h s
    /\ sameLogger s s'.
Proof.
  unfold configOf. destruct (truthy (Val (cachedConfig s))) eqn:T.
  - exists s. rewrite getConfig_cached by exact T. repeat split.
  - unfold getConfig, bind, readCache. rewrite T.
    unfold loaded, tryCatch, bind.
    destruct (configString h) as [[| c text] |].
    + destruct (Logger_warn_run "No feature flags configuration found in environment" s)
        as (s1 & E1 & _ & L1 & L2).
      rewrite E1. simpl. eexists; split; [reflexivity |].
      simpl. repeat split; assumption.
    + unfold lift. destruct (JSON_parse h (String c text)) as [v | e].
      * simpl.
        destruct (Logger_info_run "Feature flags configuration loaded successfully"
                    (setCache v s)) as (s1 & E1 & C1 & L1 & L2).
        rewrite E1. simpl in *. exists s1. rewrite C1.
        repeat split; congruence.
      * destruct (Logger_error_run
                    ("Failed to parse feature flags config: " +:+ message e) s)
          as (s1 & E1 & _ & L1 & L2).
        rewrite E1. simpl. eexists; split; [reflexivity |].
        simpl. repeat split; assumption.
    + destruct (Logger_warn_run "No feature flags configuration found in environment" s)
        as (s1 & E1 & _ & L1 & L2).
      rewrite E1. simpl. eexists; split; [reflexivity |].
      simpl. repeat split; assumption.
Qed.

Lemma configOf_stable h s s' :
  cachedConfig s' = configOf h s -> configOf h s' = configOf h s.
Proof.
  intros E. unfold configOf at 1. rewrite E.
  destruct (truthy (Val (configOf h s))) eqn:T; [reflexivity |].
  unfold configOf in *. destruct (truthy (Val (cachedConfig s))) eqn:T'; congruence.
Qed.

(** ** The evaluator *)

Lemma isFeatureEnabled_spec h featureName user s :
  exists s',
    isFeatureEnabled h featureName user s
    = (Ok (decision h (configOf h s) featureName user), s')
    /\ cachedConfig s' = configOf h s
    /\ sameLogger s s'.
Proof.
  unfold isFeatureEnabled, tryCatch, bind.
  destruct (getConfig_spec h s) as (s1 & E1 & C1 & L1 & L1').
  rewrite E1.
  destruct (evaluate_verdict h (configOf h s) featureName user s1)
    as (s2 & E2 & C2 & L2 & L2').
  rewrite E2. unfold decision.
  destruct (verdict h (configOf h s) featureName user) as [b | e].
  - exists s2. repeat split; congruence.
  - destruct (Logger_error_run
                ("Error evaluating feature " +:+ dq +:+ featureName +:+ dq +:+ ": "
                 +:+ message e) s2) as (s3 & E3 & C3 & L3 & L3').
    rewrite E3. simpl. exists s3. repeat split; congruence.
Qed.

Lemma answer_decision h s featureName user :
  answer h s featureName user = decision h (configOf h s) featureName user.
Proof.
  unfold answer.
  destruct (isFeatureEnabled_spec h featureName user s) as (s' & E & _).
  rewrite E. reflexivity.
Qed.

Lemma loaded_undefined h : transportUndefined h -> loaded h = emptyConfig.
Proof.
  intros U. unfold loaded, configString.
  destruct (process_env h) as [env |] eqn:E; [| reflexivity].
  destruct (U env E) as [-> ->]. reflexivity.
Qed.

Lemma loaded_unparseable h : transportUnparseable h -> loaded h = emptyConfig.
Proof.
  intros (text & e & E & P). unfold loaded. rewrite E.
  destruct text; [reflexivity |]. rewrite P. reflexivity.
Qed.

(** C3: [getConfig] never raises.  It returns a configuration in every
    state of every host; with a populated cache it returns the cached
    configuration and changes nothing; with an empty cache, when neither
    transport variable is defined or the transport string does not parse, it
    stores the empty configuration [{ features: {} }] and returns it. *)
Theorem getConfig_never_raises (h : Host) (s : State) :
  (exists c s', getConfig h s = (Ok c, s'))
  /\ (truthy (Val (cachedConfig s)) = true ->
      getConfig h s = (Ok (cachedConfig s), s))
  /\ (truthy (Val (cachedConfig s)) = false ->
      transportUndefined h \/ transportUnparseable h ->
      exists s', getConfig h s = (Ok emptyConfig, s') /\ cachedConfig s' = emptyConfig).
Proof.
  split; [| split].
  - destruct (getConfig_spec h s) as (s' & E & _). eauto.
  - apply getConfig_cached.
  - intros T Hsrc.
    destruct (getConfig_spec h s) as (s' & E & C & _).
    assert (L : configOf h s = emptyConfig).
    { unfold configOf. rewrite T.
      destruct Hsrc; [apply loaded_undefined | apply loaded_unparseable]; assumption. }
    rewrite L in *. eauto.
Qed.

(** The three cases at concrete inputs: a populated cache, a host without
    transport variables, and a transport string that is not JSON. *)
Lemma getConfig_never_raises_witness :
  getConfig Fixtures.bare (Fixtures.cached Fixtures.bare Demo.testConfig)
  = (Ok Demo.testConfig, Fixtures.cached Fixtures.bare Demo.testConfig)
  /\ (exists s', getConfig Fixtures.bare (initialState Fixtures.bare) = (Ok emptyConfig, s')
                 /\ cachedConfig s' = emptyConfig)
  /\ (exists s', getConfig Fixtures.garbled (initialState Fixtures.garbled)
                 = (Ok emptyConfig, s')
                 /\ cachedConfig s' = emptyConfig).
Proof.
  split; [| split].
  - apply (getConfig_never_raises Fixtures.bare
             (Fixtures.cached Fixtures.bare Demo.testConfig)).
    reflexivity.
  - apply (getConfig_never_raises Fixtures.bare (initialState Fixtures.bare)).
    + reflexivity.
    + left. intros env E. injection E as <-. split; reflexivity.
  - apply (getConfig_never_raises Fixtures.garbled (initialState Fixtures.garbled)).
    + reflexivity.
    + right. exists "{oops", (SyntaxError "Unexpected token in JSON").
      split; vm_compute; reflexivity.
Defined.

(** ** Reading the verdict off the rule *)

Lemma verdict_judge h config featureName user :
  verdict h config featureName user
  = (features <~ getProp (Val config) "features" ;;
     feature <~ getProp features featureName ;;
     judge h feature user).
Proof.
  unfold verdict, evaluate, judge, bind, lift, rbind, ret, userIdOf.
  destruct (getProp (Val config) "features") as [features |]; [| reflexivity].
  destruct (getProp features featureName) as [feature |]; [| reflexivity].
  destruct (negb (truthy feature)).
  { destruct (Logger_warn_run
                ("Feature " +:+ dq +:+ featureName +:+ dq +:+ " not found in configuration")
                (initialState h)) as (s1 & E1 & _).
    rewrite E1. reflexivity. }
  destruct (getProp feature "onlyForUserIds") as [ids |]; [| reflexivity].
  destruct (truthy ids).
  - destruct (getProp ids "length") as [len |]; [| reflexivity].
    destruct (greaterThanZero h len) as [[|] |]; [| | reflexivity].
    + destruct (user ≫= userId) as [[| c id] |]; reflexivity.
    + destruct (hasProperty "enabled" feature) as [[|] |]; try reflexivity.
      destruct (getProp feature "enabled"); reflexivity.
  - destruct (hasProperty "enabled" feature) as [[|] |]; try reflexivity.
    destruct (getProp feature "enabled"); reflexivity.
Qed.

Lemma getProp_own v k x :
  ownProperty v k = Some x -> getProp (Val v) k = Ok (Val x).
Proof.
  intros E. unfold getProp. rewrite E. destruct v; try reflexivity. discriminate.
Qed.

Lemma ruleOf_Some config featureName rule :
  ruleOf config featureName = Some rule ->
  exists features,
    ownProperty config "features" = Some features
    /\ ownProperty features featureName = Some rule.
Proof.
  unfold ruleOf. destruct (ownProperty config "features") as [features |]; simpl.
  - eauto.
  - discriminate.
Qed.

Lemma verdict_rule h config featureName user rule :
  ruleOf config featureName = Some rule ->
  verdict h config featureName user = judge h (Val rule) user.
Proof.
  intros R. destruct (ruleOf_Some _ _ _ R) as (features & F & E).
  rewrite verdict_judge, (getProp_own _ _ _ F). cbn [rbind].
  rewrite (getProp_own _ _ _ E). reflexivity.
Qed.

Lemma judge_Undefined h user : judge h Undefined user = Ok false.
Proof. reflexivity. Qed.

Lemma judge_Builtin h user : judge h Builtin user = Ok false.
Proof. reflexivity. Qed.

Lemma features_not_inherited v : inherited v "features" = false.
Proof. destruct v; reflexivity. Qed.

Lemma getProp_absent v k :
  ownProperty v k = None ->
  (exists e, getProp (Val v) k = Throw e)
  \/ getProp (Val v) k = Ok Undefined
  \/ getProp (Val v) k = Ok Builtin.
Proof.
  intros E. unfold getProp. rewrite E.
  destruct v; eauto; destruct (inherited _ k); auto.
Qed.

Lemma getProp_features_absent config :
  ownProperty config "features" = None ->
  (exists e, getProp (Val config) "features" = Throw e)
  \/ getProp (Val config) "features" = Ok Undefined.
Proof.
  intros E. unfold getProp. rewrite E, features_not_inherited.
  destruct config; eauto.
Qed.

Lemma decision_absent h config featureName user :
  ruleOf config featureName = None ->
  decision h config featureName user = false.
Proof.
  intros R. unfold decision. rewrite verdict_judge.
  unfold ruleOf in R.
  destruct (ownProperty config "features") as [features |] eqn:F; simpl in R.
  - rewrite (getProp_own _ _ _ F). cbn [rbind].
    destruct (getProp_absent _ _ R) as [[e ->] | [-> | ->]]; reflexivity.
  - destruct (getProp_features_absent _ F) as [[e ->] | ->]; reflexivity.
Qed.

(** C4: a call of [isFeatureEnabled] returns a boolean in every state of
    every host, for every name and optional user; it returns [false] when the
    name is absent from the features map of the configuration in force; and
    whenever its [try] block throws, the error is caught and the call returns
    [false]. *)
Theorem isFeatureEnabled_total (h : Host) (featureName : string)
    (user : option UserIdentity) (s : State) :
  (exists b s', isFeatureEnabled h featureName user s = (Ok b, s'))
  /\ (forall config,
        fst (getConfig h s) = Ok config ->
        ruleOf config featureName = None ->
        fst (isFeatureEnabled h featureName user s) = Ok false)
  /\ (forall e s1,
        attempt h featureName user s = (Throw e, s1) ->
        fst (isFeatureEnabled h featureName user s) = Ok false).
Proof.
  split; [| split].
  - destruct (isFeatureEnabled_spec h featureName user s) as (s' & E & _). eauto.
  - intros config G R.
    destruct (isFeatureEnabled_spec h featureName user s) as (s' & E & _).
    destruct (getConfig_spec h s) as (s1 & E1 & _).
    rewrite E1 in G. simpl in G. injection G as G.
    rewrite E, G. simpl. f_equal. apply decision_absent, R.
  - intros e s1 A. unfold isFeatureEnabled, tryCatch.
    fold (attempt h featureName user). rewrite A.
    destruct (Logger_error_run
                ("Error evaluating feature " +:+ dq +:+ featureName +:+ dq +:+ ": "
                 +:+ message e) s1) as (s2 & E2 & _).
    unfold bind. rewrite E2. reflexivity.
Qed.

(** An unknown name, a name that only [Object.prototype] knows, and a cached
    value without features, on which reading [features[name]] throws. *)
Lemma isFeatureEnabled_total_witness :
  fst (isFeatureEnabled Demo.testHost "non_existent" None (initialState Demo.testHost))
  = Ok false
  /\ fst (isFeatureEnabled Demo.testHost "toString" (Fixtures.user "user-123")
            (initialState Demo.testHost)) = Ok false
  /\ fst (isFeatureEnabled Fixtures.bare "f" None (Fixtures.cached Fixtures.bare (JNum 5)))
     = Ok false.
Proof.
  split; [| split].
  - apply (isFeatureEnabled_total Demo.testHost "non_existent" None
             (initialState Demo.testHost)) with (config := Demo.testConfig);
      vm_compute; reflexivity.
  - apply (isFeatureEnabled_total Demo.testHost "toString" (Fixtures.user "user-123")
             (initialState Demo.testHost)) with (config := Demo.testConfig);
      vm_compute; reflexivity.
  - eapply (isFeatureEnabled_total Fixtures.bare "f" None
              (Fixtures.cached Fixtures.bare (JNum 5))).
    vm_compute. reflexivity.
Defined.

(** ** Rules that are objects *)

Lemma getProp_field props k x :
  assoc k props = Some x -> getProp (Val (JObj props)) k = Ok (Val x).
Proof. intros E. apply getProp_own. exact E. Qed.

Lemma getProp_no_onlyForUserIds props :
  assoc "onlyForUserIds" props = None ->
  getProp (Val (JObj props)) "onlyForUserIds" = Ok Undefined.
Proof. intros E. unfold getProp, ownProperty. rewrite E. reflexivity. Qed.

Lemma hasProperty_enabled props :
  hasProperty "enabled" (Val (JObj props))
  = Ok (bool_decide (is_Some (assoc "enabled" props))).
Proof. unfold hasProperty, ownProperty. rewrite orb_false_r. reflexivity. Qed.

Lemma existsb_sameValueZero id ids :
  existsb (sameValueZero id) ids = true <-> In (JStr id) ids.
Proof.
  rewrite existsb_exists. split.
  - intros (x & I & E). destruct x; try discriminate.
    simpl in E. apply String.eqb_eq in E. subst. exact I.
  - intros I. exists (JStr id). split; [exact I |]. simpl. apply String.eqb_refl.
Qed.

(** The steps after the test of the user list, on a rule that is an object. *)
Lemma enabled_check props :
  (hasEnabled <~ hasProperty "enabled" (Val (JObj props)) ;;
   if hasEnabled then
     enabled <~ getProp (Val (JObj props)) "enabled" ;;
     Ok (strictEqTrue enabled)
   else Ok false)
  = Ok (match assoc "enabled" props with
        | Some (JBool true) => true
        | _ => false
        end).
Proof.
  rewrite hasProperty_enabled. cbn [rbind].
  destruct (assoc "enabled" props) as [e |] eqn:E.
  - rewrite bool_decide_true by eauto.
    rewrite (getProp_field _ _ _ E). cbn [rbind].
    destruct e as [| [|] | | | |]; reflexivity.
  - rewrite bool_decide_false by (intros [? ?]; discriminate). reflexivity.
Qed.

Lemma judge_list h props ids user :
  assoc "onlyForUserIds" props = Some (JArr ids) ->
  ids <> [] ->
  judge h (Val (JObj props)) user
  = Ok (match userIdOf user with
        | None | Some "" => false
        | Some id => existsb (sameValueZero id) ids
        end).
Proof.
  intros E N. unfold judge. cbn [truthy negb].
  rewrite (getProp_field _ _ _ E). cbn [rbind truthy].
  destruct ids as [| x ids]; [congruence |].
  cbn [getProp ownProperty String.eqb Ascii.eqb Bool.eqb rbind greaterThanZero].
  replace (Z.ltb 0 (Z.of_nat (length (x :: ids)))) with true
    by (symmetry; apply Z.ltb_lt; simpl length; lia).
  destruct (userIdOf user) as [[| c id] |]; reflexivity.
Qed.

Lemma judge_empty_list h props user :
  assoc "onlyForUserIds" props = Some (JArr []) ->
  judge h (Val (JObj props)) user
  = Ok (match assoc "enabled" props with
        | Some (JBool true) => true
        | _ => false
        end).
Proof.
  intros E. unfold judge. cbn [truthy negb].
  rewrite (getProp_field _ _ _ E). cbn [rbind truthy].
  cbn [getProp ownProperty String.eqb Ascii.eqb Bool.eqb rbind greaterThanZero length
       Z.of_nat Z.ltb Z.compare].
  apply enabled_check.
Qed.

(** The answer of a call in terms of the configuration [getConfig] returns. *)
Lemma isFeatureEnabled_on h s config featureName user :
  fst (getConfig h s) = Ok config ->
  fst (isFeatureEnabled h featureName user s)
  = Ok (decision h config featureName user).
Proof.
  intros G.
  destruct (isFeatureEnabled_spec h featureName user s) as (s' & E & _).
  destruct (getConfig_spec h s) as (s1 & E1 & _).
  rewrite E1 in G. simpl in G. injection G as G.
  rewrite E, G. reflexivity.
Qed.

(** ** Features restricted to a list of users *)

(** C1, as amended: when the rule of a feature is an object whose
    [onlyForUserIds] is a non-empty list, [isFeatureEnabled(name, user)]
    returns [true] if and only if a user is supplied whose [userId] is a
    non-empty string that is an element of the list, whatever the rule says
    about [enabled]; in particular it returns [false] when the user is absent
    or has no [userId]. *)
Theorem restricted_to_listed_users (h : Host) (s : State) (config : JsValue)
    (featureName : string) (user : option UserIdentity)
    (props : list (string * JsValue)) (ids : list JsValue) :
  fst (getConfig h s) = Ok config ->
  ruleOf config featureName = Some (JObj props) ->
  assoc "onlyForUserIds" props = Some (JArr ids) ->
  ids <> [] ->
  exists b,
    fst (isFeatureEnabled h featureName user s) = Ok b
    /\ (b = true <->
        exists id, userIdOf user = Some id /\ id <> "" /\ In (JStr id) ids)
    /\ (userIdOf user = None -> b = false).
Proof.
  intros G R E N.
  rewrite (isFeatureEnabled_on _ _ _ _ _ G).
  unfold decision. rewrite (verdict_rule _ _ _ _ _ R), (judge_list _ _ _ _ E N).
  eexists; split; [reflexivity |]. split.
  - destruct (userIdOf user) as [[| c id] |].
    + split; [discriminate |]. intros (id & [= <-] & K & _). congruence.
    + rewrite existsb_sameValueZero. split.
      * intros I. exists (String c id). repeat split; [discriminate | exact I].
      * intros (id' & [= <-] & _ & I). exact I.
    + split; [discriminate |]. intros (id & K & _). discriminate.
  - intros ->. reflexivity.
Qed.

(** The precedence test of the suite: [enabled: false] with a listed user. *)
Lemma restricted_to_listed_users_witness :
  exists b,
    fst (isFeatureEnabled Demo.testHost "test_feature_combined" (Fixtures.user "user-789")
           (initialState Demo.testHost)) = Ok b
    /\ (b = true <->
        exists id, userIdOf (Fixtures.user "user-789") = Some id /\ id <> ""
                   /\ In (JStr id) [JStr "user-789"])
    /\ (userIdOf (Fixtures.user "user-789") = None -> b = false).
Proof.
  apply (restricted_to_listed_users Demo.testHost (initialState Demo.testHost)
           Demo.testConfig "test_feature_combined" (Fixtures.user "user-789")
           [("enabled", JBool false); ("onlyForUserIds", JArr [JStr "user-789"]);
            ("comment", JStr "Combined config - user list takes precedence")]
           [JStr "user-789"]).
  - vm_compute. reflexivity.
  - vm_compute. reflexivity.
  - reflexivity.
  - discriminate.
Defined.

(** C1 as stated fails: the list holds the empty string and the user's
    [userId] is the empty string, so the [userId] appears in the list, yet the
    call returns [false]. *)
Lemma listed_empty_id_counterexample :
  let ids := [JStr ""] in
  let config := Fixtures.oneFeature (JObj [("onlyForUserIds", JArr ids)]) in
  let s := Fixtures.cached Fixtures.bare config in
  let user := Fixtures.user "" in
  fst (getConfig Fixtures.bare s) = Ok config
  /\ ruleOf config "f" = Some (JObj [("onlyForUserIds", JArr ids)])
  /\ ~ (fst (isFeatureEnabled Fixtures.bare "f" user s) = Ok true
        <-> exists id, userIdOf user = Some id /\ In (JStr id) ids).
Proof.
  cbv zeta. split; [reflexivity |]. split; [reflexivity |].
  intros [_ K].
  assert (E : fst (isFeatureEnabled Fixtures.bare "f" (Fixtures.user "")
                     (Fixtures.cached Fixtures.bare
                        (Fixtures.oneFeature (JObj [("onlyForUserIds", JArr [JStr ""])]))))
              = Ok false) by (vm_compute; reflexivity).
  rewrite E in K.
  assert (F : @Ok bool false = Ok true); [| discriminate F].
  apply K. exists "". split; [reflexivity |]. left. reflexivity.
Qed.

(** C9: when the non-empty list of a rule contains the empty string, a user
    whose [userId] is the empty string still gets [false]: the empty [userId]
    is treated as no [userId], and the list is not consulted. *)
Theorem empty_userId_is_no_userId (h : Host) (s : State) (config : JsValue)
    (featureName : string) (user : UserIdentity)
    (props : list (string * JsValue)) (ids : list JsValue) :
  fst (getConfig h s) = Ok config ->
  ruleOf config featureName = Some (JObj props) ->
  assoc "onlyForUserIds" props = Some (JArr ids) ->
  In (JStr "") ids ->
  userId user = Some "" ->
  fst (isFeatureEnabled h featureName (Some user) s) = Ok false
  /\ fst (isFeatureEnabled h featureName (Some user) s)
     = fst (isFeatureEnabled h featureName
              (Some {| userId := None; handle := handle user; email := email user |}) s).
Proof.
  intros G R E I U.
  assert (N : ids <> []) by (intros ->; destruct I).
  rewrite !(isFeatureEnabled_on _ _ _ _ _ G).
  unfold decision.
  rewrite !(verdict_rule _ _ _ _ _ R), !(judge_list _ _ _ _ E N).
  unfold userIdOf. simpl. rewrite U. split; reflexivity.
Qed.

Lemma empty_userId_is_no_userId_witness :
  let config := Fixtures.oneFeature (JObj [("onlyForUserIds", JArr [JStr "a"; JStr ""])]) in
  let s := Fixtures.cached Fixtures.bare config in
  let user := {| userId := Some ""; handle := Some "nobody"; email := None |} in
  fst (isFeatureEnabled Fixtures.bare "f" (Some user) s) = Ok false
  /\ fst (isFeatureEnabled Fixtures.bare "f" (Some user) s)
     = fst (isFeatureEnabled Fixtures.bare "f"
              (Some {| userId := None; handle := handle user; email := email user |}) s).
Proof.
  cbv zeta.
  apply (empty_userId_is_no_userId Fixtures.bare _
           (Fixtures.oneFeature (JObj [("onlyForUserIds", JArr [JStr "a"; JStr ""])]))
           "f" _ [("onlyForUserIds", JArr [JStr "a"; JStr ""])] [JStr "a"; JStr ""]).
  - reflexivity.
  - reflexivity.
  - reflexivity.
  - right. left. reflexivity.
  - reflexivity.
Defined.

(** C2: when the rule of a feature is an object whose [onlyForUserIds] is
    the empty list, the list is ignored: the call returns the value of
    [enabled] when the rule has one, and [false] when it has none, for every
    user and for no user. *)
Theorem empty_list_falls_through (h : Host) (s : State) (config : JsValue)
    (featureName : string) (user : option UserIdentity)
    (props : list (string * JsValue)) :
  fst (getConfig h s) = Ok config ->
  ruleOf config featureName = Some (JObj props) ->
  assoc "onlyForUserIds" props = Some (JArr []) ->
  (forall b, assoc "enabled" props = Some (JBool b) ->
             fst (isFeatureEnabled h featureName user s) = Ok b)
  /\ (assoc "enabled" props = None ->
      fst (isFeatureEnabled h featureName user s) = Ok false).
Proof.
  intros G R E.
  rewrite (isFeatureEnabled_on _ _ _ _ _ G).
  unfold decision. rewrite (verdict_rule _ _ _ _ _ R), (judge_empty_list _ _ _ E).
  split.
  - intros b ->. destruct b; reflexivity.
  - intros ->. reflexivity.
Qed.

(** An empty list next to [enabled: true] does not restrict the feature to
    nobody. *)
Lemma empty_list_falls_through_witness :
  let props := [("enabled", JBool true); ("onlyForUserIds", JArr [])] in
  let s := Fixtures.cached Fixtures.bare (Fixtures.oneFeature (JObj props)) in
  fst (isFeatureEnabled Fixtures.bare "f" None s) = Ok true.
Proof.
  cbv zeta.
  apply (empty_list_falls_through Fixtures.bare _
           (Fixtures.oneFeature
              (JObj [("enabled", JBool true); ("onlyForUserIds", JArr [])]))
           "f" None [("enabled", JBool true); ("onlyForUserIds", JArr [])]);
    reflexivity.
Defined.

(** ** Batch operations *)

Lemma answer_stable h s s' featureName user :
  cachedConfig s' = configOf h s ->
  answer h s' featureName user = answer h s featureName user.
Proof.
  intros C. rewrite !answer_decision, (configOf_stable _ _ _ C). reflexivity.
Qed.

Lemma isFeatureEnabled_answer h featureName user s :
  exists s',
    isFeatureEnabled h featureName user s = (Ok (answer h s featureName user), s')
    /\ forall name, answer h s' name user = answer h s name user.
Proof.
  destruct (isFeatureEnabled_spec h featureName user s) as (s' & E & C & _).
  exists s'. rewrite answer_decision. split; [exact E |].
  intros name. apply answer_stable, C.
Qed.

Lemma existsb_same {A : Type} (f g : A -> bool) (l : list A) :
  (forall x, f x = g x) -> existsb f l = existsb g l.
Proof.
  intros E. induction l as [| x l IH]; [reflexivity |].
  simpl. rewrite E, IH. reflexivity.
Qed.

Lemma forallb_same {A : Type} (f g : A -> bool) (l : list A) :
  (forall x, f x = g x) -> forallb f l = forallb g l.
Proof.
  intros E. induction l as [| x l IH]; [reflexivity |].
  simpl. rewrite E, IH. reflexivity.
Qed.

Lemma isAnyFeatureEnabled_spec h user featureNames :
  forall s,
    fst (isAnyFeatureEnabled h featureNames user s)
    = Ok (existsb (fun name => answer h s name user) featureNames).
Proof.
  induction featureNames as [| name rest IH]; intros s; [reflexivity |].
  cbn [isAnyFeatureEnabled existsb]. unfold bind.
  destruct (isFeatureEnabled_answer h name user s) as (s' & E & St).
  rewrite E. destruct (answer h s name user); [reflexivity |].
  rewrite IH. cbn [orb]. f_equal.
  apply existsb_same. intros x. apply St.
Qed.

Lemma areAllFeaturesEnabled_spec h user featureNames :
  forall s,
    fst (areAllFeaturesEnabled h featureNames user s)
    = Ok (forallb (fun name => answer h s name user) featureNames).
Proof.
  induction featureNames as [| name rest IH]; intros s; [reflexivity |].
  cbn [areAllFeaturesEnabled forallb]. unfold bind.
  destruct (isFeatureEnabled_answer h name user s) as (s' & E & St).
  rewrite E. destruct (answer h s name user); [| reflexivity].
  rewrite IH. cbn [andb]. f_equal.
  apply forallb_same. intros x. apply St.
Qed.

Lemma isAnyFeatureEnabled_stops h user name before after :
  forall s,
    answer h s name user = true ->
    isAnyFeatureEnabled h (before ++ name :: after)%list user s
    = isAnyFeatureEnabled h (before ++ [name])%list user s.
Proof.
  induction before as [| x before IH]; intros s A.
  - cbn [app isAnyFeatureEnabled]. unfold bind.
    destruct (isFeatureEnabled_answer h name user s) as (s' & E & _).
    rewrite E, A. reflexivity.
  - cbn [app isAnyFeatureEnabled]. unfold bind.
    destruct (isFeatureEnabled_answer h x user s) as (s' & E & St).
    rewrite E. destruct (answer h s x user); [reflexivity |].
    apply IH. rewrite St. exact A.
Qed.

Lemma areAllFeaturesEnabled_stops h user name before after :
  forall s,
    answer h s name user = false ->
    areAllFeaturesEnabled h (before ++ name :: after)%list user s
    = areAllFeaturesEnabled h (before ++ [name])%list user s.
Proof.
  induction before as [| x before IH]; intros s A.
  - cbn [app areAllFeaturesEnabled]. unfold bind.
    destruct (isFeatureEnabled_answer h name user s) as (s' & E & _).
    rewrite E, A. reflexivity.
  - cbn [app areAllFeaturesEnabled]. unfold bind.
    destruct (isFeatureEnabled_answer h x user s) as (s' & E & St).
    rewrite E. destruct (answer h s x user); [| reflexivity].
    apply IH. rewrite St. exact A.
Qed.

(** C5: for every list of names and every optional user,
    [isAnyFeatureEnabled] returns the disjunction and [areAllFeaturesEnabled]
    the conjunction of the answers of [isFeatureEnabled] on the names.  The
    names are tried from left to right and the rest is skipped once the result
    is known: the names after the first enabled one (for [some]) or after the
    first disabled one (for [every]) change neither the result nor the state.
    On the empty list the results are [false] and [true], and nothing is
    evaluated. *)
Theorem batch_or_and (h : Host) (featureNames : list string)
    (user : option UserIdentity) (s : State) :
  fst (isAnyFeatureEnabled h featureNames user s)
  = Ok (existsb (fun name => answer h s name user) featureNames)
  /\ fst (areAllFeaturesEnabled h featureNames user s)
     = Ok (forallb (fun name => answer h s name user) featureNames)
  /\ (forall before name after,
        featureNames = (before ++ name :: after)%list ->
        answer h s name user = true ->
        isAnyFeatureEnabled h featureNames user s
        = isAnyFeatureEnabled h (before ++ [name])%list user s)
  /\ (forall before name after,
        featureNames = (before ++ name :: after)%list ->
        answer h s name user = false ->
        areAllFeaturesEnabled h featureNames user s
        = areAllFeaturesEnabled h (before ++ [name])%list user s)
  /\ isAnyFeatureEnabled h [] user s = (Ok false, s)
  /\ areAllFeaturesEnabled h [] user s = (Ok true, s).
Proof.
  split; [apply isAnyFeatureEnabled_spec |].
  split; [apply areAllFeaturesEnabled_spec |].
  split; [intros before name after -> A; apply isAnyFeatureEnabled_stops, A |].
  split; [intros before name after -> A; apply areAllFeaturesEnabled_stops, A |].
  split; reflexivity.
Qed.

(** On the configuration of the test-suite: the unknown name after the
    enabled feature is not looked up (no warning is written for it). *)
Lemma batch_or_and_witness :
  let h := Demo.host {[ "NODE_ENV" := "dev" ]} ∅ in
  let s := Fixtures.cached h Demo.testConfig in
  isAnyFeatureEnabled h ["test_feature_disabled"; "test_feature_enabled"; "unknown"] None s
  = isAnyFeatureEnabled h (["test_feature_disabled"] ++ ["test_feature_enabled"])%list None s
  /\ output (snd (isAnyFeatureEnabled h
                    ["test_feature_disabled"; "test_feature_enabled"; "unknown"] None s))
     = [].
Proof.
  cbv zeta. split.
  - destruct (batch_or_and (Demo.host {[ "NODE_ENV" := "dev" ]} ∅)
                ["test_feature_disabled"; "test_feature_enabled"; "unknown"] None
                (Fixtures.cached (Demo.host {[ "NODE_ENV" := "dev" ]} ∅) Demo.testConfig))
      as (_ & _ & H & _).
    apply (H ["test_feature_disabled"] "test_feature_enabled" ["unknown"]).
    + reflexivity.
    + vm_compute. reflexivity.
  - vm_compute. reflexivity.
Defined.

(** ** The validator *)

Lemma isType_string x : isType TString (Val x) = isString x.
Proof. destruct x; reflexivity. Qed.

Lemma everyString_list ids :
  everyString (Val (JArr ids)) = forallb isString ids.
Proof.
  unfold everyString. induction ids as [| x ids IH]; [reflexivity |].
  cbn [forallb]. rewrite isType_string, IH. reflexivity.
Qed.

Lemma getProp_object o k :
  notAnObject (Val o) = false ->
  getProp (Val o) k
  = Ok (match ownProperty o k with
        | Some x => Val x
        | None => if inherited o k then Builtin else Undefined
        end).
Proof.
  intros N. destruct o; try discriminate; unfold getProp;
    destruct (ownProperty _ k); reflexivity.
Qed.

Lemma hasProperty_object o k :
  notAnObject (Val o) = false ->
  hasProperty k (Val o) = Ok (bool_decide (is_Some (ownProperty o k)) || inherited o k).
Proof. intros N. destruct o; try discriminate; reflexivity. Qed.

Lemma rule_keys_not_inherited o :
  notAnObject (Val o) = false ->
  inherited o "enabled" = false
  /\ inherited o "onlyForUserIds" = false
  /\ inherited o "comment" = false.
Proof. intros N. destruct o; try discriminate; repeat split. Qed.

Ltac split_option o :=
  let E := fresh "E" in
  destruct o as [[| [|] | | | |] |] eqn:E.

Local Opaque String.append everyString.

(** The validator accepts exactly the well-shaped rules, and rejects the
    others with a validation error. *)
Lemma validateFeatureConfig_spec name rule :
  if wellShaped rule then validateFeatureConfig name rule = Ok tt
  else exists msg, validateFeatureConfig name rule = Throw (FeatureFlagValidationError msg).
Proof.
  unfold wellShaped, validateFeatureConfig.
  destruct (notAnObject (Val rule)) eqn:N; [cbn; eexists; reflexivity |].
  destruct (rule_keys_not_inherited rule N) as (I1 & I2 & I3).
  rewrite !(hasProperty_object _ _ N), !(getProp_object _ _ N), I1, I2, I3.
  split_option (ownProperty rule "enabled");
    split_option (ownProperty rule "onlyForUserIds");
    split_option (ownProperty rule "comment");
    cbn;
    rewrite ?everyString_list;
    try match goal with |- context [forallb isString ?l] =>
          destruct (forallb isString l) end;
    cbn; try reflexivity; eexists; reflexivity.
Qed.


Local Transparent String.append everyString.

Lemma forallb_isString_false ids x :
  In x ids -> isString x = false -> forallb isString ids = false.
Proof.
  intros I F. destruct (forallb isString ids) eqn:A; [| reflexivity].
  rewrite forallb_forall in A. rewrite (A x I) in F. discriminate.
Qed.

Lemma violation_not_wellShaped rule : Violation rule -> wellShaped rule = false.
Proof.
  intros [E I | c C S | ids x I X S]; unfold wellShaped.
  - rewrite E, I. destruct (negb (notAnObject (Val rule))); reflexivity.
  - rewrite C. destruct c; try discriminate; apply andb_false_r.
  - rewrite I, (forallb_isString_false _ _ X S), andb_false_r. reflexivity.
Qed.

Lemma validateFeatureConfig_rejects name rule :
  wellShaped rule = false ->
  exists msg, validateFeatureConfig name rule = Throw (FeatureFlagValidationError msg).
Proof.
  intros W. pose proof (validateFeatureConfig_spec name rule) as S.
  rewrite W in S. exact S.
Qed.

Lemma validateFeatureConfig_outcome name rule :
  validateFeatureConfig name rule = Ok tt
  \/ exists msg, validateFeatureConfig name rule = Throw (FeatureFlagValidationError msg).
Proof.
  pose proof (validateFeatureConfig_spec name rule) as S.
  destruct (wellShaped rule); auto.
Qed.

Lemma validateEach_first_failure before name rule after e :
  validateEach before = Ok tt ->
  validateFeatureConfig name rule = Throw e ->
  validateEach (before ++ (name, rule) :: after)%list = Throw e.
Proof.
  induction before as [| [n r] before IH]; intros B F.
  - cbn [app validateEach]. rewrite F. reflexivity.
  - cbn [app validateEach] in *.
    destruct (validateFeatureConfig n r) as [[] | e']; [| discriminate].
    cbn [rbind] in *. apply IH; assumption.
Qed.

Lemma validateEach_rejects l name rule :
  In (name, rule) l ->
  wellShaped rule = false ->
  exists msg, validateEach l = Throw (FeatureFlagValidationError msg).
Proof.
  induction l as [| [n r] l IH]; intros I W; [destruct I |].
  cbn [validateEach].
  destruct I as [[= -> ->] | I].
  - destruct (validateFeatureConfig_rejects name rule W) as [msg ->]. eauto.
  - destruct (validateFeatureConfig_outcome n r) as [-> | [msg ->]].
    + cbn [rbind]. apply IH; assumption.
    + eauto.
Qed.

Lemma validateEach_outcome l :
  validateEach l = Ok tt
  \/ exists msg, validateEach l = Throw (FeatureFlagValidationError msg).
Proof.
  induction l as [| [n r] l IH]; [left; reflexivity |].
  cbn [validateEach].
  destruct (validateFeatureConfig_outcome n r) as [-> | [msg ->]]; [exact IH | eauto].
Qed.

Lemma validateConfig_object doc :
  notAnObject (Val doc) = false ->
  validateConfig (Val doc)
  = match ownProperty doc "features" with
    | None =>
        Throw (FeatureFlagValidationError
                 ("Configuration must have a " +:+ quoted "features" +:+ " property"))
    | Some features =>
        if notAnObject (Val features) then
          Throw (FeatureFlagValidationError (quoted "features" +:+ " must be an object"))
        else
          _ <~ validateEach (entries features) ;;
          Ok doc
    end.
Proof.
  intros N. unfold validateConfig.
  destruct doc; try discriminate;
    rewrite (hasProperty_object _ _ N), (getProp_object _ _ N), features_not_inherited;
    destruct (ownProperty _ "features") as [features |]; reflexivity.
Qed.

Lemma validateConfig_outcome data :
  (exists doc, data = Val doc /\ validateConfig data = Ok doc)
  \/ exists msg, validateConfig data = Throw (FeatureFlagValidationError msg).
Proof.
  destruct data as [| | doc]; try (right; eexists; reflexivity).
  destruct (notAnObject (Val doc)) eqn:N.
  { right. destruct doc; try discriminate; eexists; reflexivity. }
  rewrite (validateConfig_object _ N).
  destruct (ownProperty doc "features") as [features |]; [| eauto].
  destruct (notAnObject (Val features)); [eauto |].
  destruct (validateEach_outcome (entries features)) as [-> | [msg ->]]; eauto.
Qed.

(** C6: the validator fails with a [FeatureFlagValidationError] on a
    document one of whose feature entries lacks both [enabled] and
    [onlyForUserIds], has a [comment] that is not a string, or has an
    [onlyForUserIds] list with an element that is not a string; when the
    entries before it pass, the error is the one of that entry, raised at its
    first failing check, and later entries are not looked at.  It also fails
    with a [FeatureFlagValidationError] on a document without a [features]
    key. *)
Theorem validation_rejects :
  (forall doc features before name rule after,
      ownProperty doc "features" = Some features ->
      entries features = (before ++ (name, rule) :: after)%list ->
      Violation rule ->
      (exists msg, validateConfig (Val doc) = Throw (FeatureFlagValidationError msg))
      /\ (notAnObject (Val doc) = false ->
          notAnObject (Val features) = false ->
          validateEach before = Ok tt ->
          exists msg,
            validateFeatureConfig name rule = Throw (FeatureFlagValidationError msg)
            /\ validateConfig (Val doc) = Throw (FeatureFlagValidationError msg)))
  /\ (forall data,
        (forall doc, data = Val doc -> ownProperty doc "features" = None) ->
        exists msg, validateConfig data = Throw (FeatureFlagValidationError msg)).
Proof.
  split.
  - intros doc features before name rule after F E V.
    apply violation_not_wellShaped in V. split.
    + destruct (validateConfig_outcome (Val doc)) as [(d & [= <-] & K) | K]; [| exact K].
      exfalso.
      destruct (notAnObject (Val doc)) eqn:N.
      { destruct doc; discriminate. }
      rewrite (validateConfig_object _ N), F in K.
      destruct (notAnObject (Val features)); [discriminate |].
      destruct (validateEach_rejects (entries features) name rule) as [msg R].
      * rewrite E. apply in_or_app. right. left. reflexivity.
      * exact V.
      * rewrite R in K. discriminate.
    + intros N N' B.
      destruct (validateFeatureConfig_rejects name rule V) as [msg R].
      exists msg. split; [exact R |].
      rewrite (validateConfig_object _ N), F, N', E.
      rewrite (validateEach_first_failure _ _ _ _ _ B R). reflexivity.
  - intros data H.
    destruct (validateConfig_outcome data) as [(d & -> & K) | K]; [| exact K].
    exfalso. specialize (H d eq_refl).
    destruct (notAnObject (Val d)) eqn:N.
    { destruct d; discriminate. }
    rewrite (validateConfig_object _ N), H in K. discriminate.
Qed.

(** A document with a passing entry, an entry without [enabled] and
    [onlyForUserIds], and a later entry that is not even an object; and a
    document without [features]. *)
Lemma validation_rejects_witness :
  (exists msg,
      validateFeatureConfig "bad" (JObj [("comment", JStr "x")])
      = Throw (FeatureFlagValidationError msg)
      /\ validateConfig
           (Val (JObj [("features",
                        JObj [("ok", JObj [("enabled", JBool true)]);
                              ("bad", JObj [("comment", JStr "x")]);
                              ("later", JNum 5)])]))
         = Throw (FeatureFlagValidationError msg))
  /\ (exists msg,
        validateConfig (Val (JObj [("flags", JObj [])]))
        = Throw (FeatureFlagValidationError msg)).
Proof.
  destruct validation_rejects as [H1 H2]. split.
  - apply (H1 (JObj [("features",
                       JObj [("ok", JObj [("enabled", JBool true)]);
                             ("bad", JObj [("comment", JStr "x")]);
                             ("later", JNum 5)])])
              (JObj [("ok", JObj [("enabled", JBool true)]);
                     ("bad", JObj [("comment", JStr "x")]);
                     ("later", JNum 5)])
              [("ok", JObj [("enabled", JBool true)])]
              "bad" (JObj [("comment", JStr "x")]) [("later", JNum 5)]);
      try reflexivity.
    apply missing_both; reflexivity.
  - apply H2. intros doc [= <-]. reflexivity.
Defined.

(** ** The loader *)

Lemma getFeatureFlagsPath_sameModule h s r s' :
  getFeatureFlagsPath h s = (r, s') -> sameModule s s'.
Proof.
  unfold getFeatureFlagsPath. destruct (process_env h) as [env |].
  - destruct (orElse _ _) as [[| c p] |]; unfold bind, ret;
      match goal with |- context [Logger_info ?m s] =>
        destruct (Logger_info_run m s) as (s1 & -> & S1) end;
      intros [= <- <-]; exact S1.
  - intros [= <- <-]. apply sameModule_refl.
Qed.



(** C7, as amended: in the Node.js environment, when the resolved path does
    not exist, [loadFeatureFlags] fails with a [FeatureFlagValidationError]
    whose message is [Feature flags file not found: ] followed by the path:
    the same kind of error as a validation failure. *)
Theorem missing_file_is_validation_error (h : Host) (s s1 : State) (filePath : string) :
  detectEnvironment h = node ->
  getFeatureFlagsPath h s = (Ok filePath, s1) ->
  fs_existsSync h filePath = false ->
  exists e s',
    loadFeatureFlags h s = (Throw e, s')
    /\ e = FeatureFlagValidationError ("Feature flags file not found: " +:+ filePath)
    /\ isValidationError e = true.
Proof.
  intros D P X. unfold loadFeatureFlags. rewrite D.
  unfold bind at 1. rewrite P. unfold tryCatch. rewrite X. cbn [negb].
  unfold throw at 1. cbn [isValidationError]. unfold bind, throw.
  match goal with |- context [Logger_error ?m s1] =>
    destruct (Logger_error_run m s1) as (s2 & -> & _) end.
  eauto.
Qed.

Lemma missing_file_is_validation_error_witness :
  exists e s',
    loadFeatureFlags Fixtures.bare (initialState Fixtures.bare) = (Throw e, s')
    /\ e = FeatureFlagValidationError
             ("Feature flags file not found: " +:+ "/app/feature-flags.yaml")
    /\ isValidationError e = true.
Proof.
  eapply (missing_file_is_validation_error Fixtures.bare (initialState Fixtures.bare)).
  - reflexivity.
  - vm_compute. reflexivity.
  - reflexivity.
Defined.

(** C7 as stated fails: on a host without the file, no error of a kind other
    than the validation error is raised. *)
Lemma not_found_kind_counterexample :
  fs_existsSync Fixtures.bare "/app/feature-flags.yaml" = false
  /\ fst (getFeatureFlagsPath Fixtures.bare (initialState Fixtures.bare))
     = Ok "/app/feature-flags.yaml"
  /\ ~ (exists e s',
          loadFeatureFlags Fixtures.bare (initialState Fixtures.bare) = (Throw e, s')
          /\ isValidationError e = false).
Proof.
  split; [reflexivity |]. split; [vm_compute; reflexivity |].
  intros (e & s' & E & K). vm_compute in E. injection E as <- _. discriminate K.
Qed.

(** ** The round trip through JSON *)

Section RoundTrip.

#[local] Arguments String.append !s1 s2 : simpl nomatch.



Lemma length_append (a b : string) :
  String.length (a +:+ b) = (String.length a + String.length b)%nat.
Proof. induction a as [|x a IH]; cbn; [reflexivity | now rewrite IH]. Qed.

Create Rewrite HintDb lengths.
#[local] Hint Rewrite length_append : lengths.












Lemma numeral_startsNumber (d : Decimal.uint) (rest : string) :
  d <> Decimal.Nil -> startsNumber (NilEmpty.string_of_uint d +:+ rest) = true.
Proof. destruct d; [contradiction | reflexivity ..]. Qed.























End RoundTrip.

(** ** From the loader to the evaluator *)




(** ** Configurations that were never validated *)

Lemma judge_unrestricted h props user :
  (forall x, assoc "onlyForUserIds" props = Some x -> nonEmptyListOrString x = false) ->
  (exists e, judge h (Val (JObj props)) user = Throw e)
  \/ judge h (Val (JObj props)) user = Ok false
  \/ judge h (Val (JObj props)) user
     = Ok (match assoc "enabled" props with
           | Some (JBool true) => true
           | _ => false
           end).
Proof.
  intros H. unfold judge. cbn [truthy negb].
  destruct (assoc "onlyForUserIds" props) as [x |] eqn:E.
  - rewrite (getProp_field _ _ _ E). cbn [rbind].
    specialize (H x eq_refl).
    destruct x as [| [|] | n | [| c t] | [| y ids] | ps]; try discriminate;
      cbn [truthy];
      try (right; right; apply enabled_check).
    + destruct (Z.eqb n 0); cbn [negb];
        right; right; apply enabled_check.
    + unfold getProp, ownProperty.
      destruct (assoc "length" ps) as [len |]; cbn [rbind inherited memberOf existsb].
      * destruct (greaterThanZero h (Val len)) as [[|] |]; cbn [rbind].
        -- destruct (userIdOf user) as [[| c id] |]; cbn [callIncludes]; eauto.
        -- right; right; apply enabled_check.
        -- eauto.
      * right; right; apply enabled_check.
  - rewrite (getProp_no_onlyForUserIds _ E). cbn [rbind truthy].
    right; right; apply enabled_check.
Qed.

(** C10, as amended: [getConfig] stores and returns whatever [JSON.parse]
    makes of the transport string, without validating it; and on a
    configuration whose rule is an object with an [enabled] field that holds
    anything but the boolean [true], and whose [onlyForUserIds] is neither a
    non-empty list nor a non-empty string, [isFeatureEnabled] returns
    [false]. *)
Theorem unvalidated_enabled_is_strict (h : Host) (s : State) :
  (forall text v,
      truthy (Val (cachedConfig s)) = false ->
      configString h = Some text ->
      text <> "" ->
      JSON_parse h text = Ok v ->
      exists s', getConfig h s = (Ok v, s') /\ cachedConfig s' = v)
  /\ (forall config featureName user props e,
        fst (getConfig h s) = Ok config ->
        ruleOf config featureName = Some (JObj props) ->
        assoc "enabled" props = Some e ->
        e <> JBool true ->
        (forall x, assoc "onlyForUserIds" props = Some x ->
                   nonEmptyListOrString x = false) ->
        fst (isFeatureEnabled h featureName user s) = Ok false).
Proof.
  split.
  - intros text v T C N J.
    destruct (getConfig_spec h s) as (s' & E & K & _).
    assert (L : configOf h s = v).
    { unfold configOf, loaded. rewrite T, C.
      destruct text; [congruence |]. rewrite J. reflexivity. }
    rewrite L in *. eauto.
  - intros config featureName user props e G R E NE H.
    rewrite (isFeatureEnabled_on _ _ _ _ _ G). f_equal.
    unfold decision. rewrite (verdict_rule _ _ _ _ _ R).
    destruct (judge_unrestricted h props user H) as [[err ->] | [-> | ->]];
      try reflexivity.
    rewrite E. destruct e as [| [|] | | | |]; congruence.
Qed.

(** A transport string whose [enabled] is the string [yes]: it is cached as
    it is, and the feature is off. *)
Lemma unvalidated_enabled_is_strict_witness :
  let text := Demo.stringify (Fixtures.oneFeature (JObj [("enabled", JStr "yes")])) in
  let h := Demo.host {[ "FFXL_CONFIG" := text ]} ∅ in
  (exists s', getConfig h (initialState h)
              = (Ok (Fixtures.oneFeature (JObj [("enabled", JStr "yes")])), s')
              /\ cachedConfig s' = Fixtures.oneFeature (JObj [("enabled", JStr "yes")]))
  /\ fst (isFeatureEnabled h "f" (Fixtures.user "u") (initialState h)) = Ok false.
Proof.
  cbv zeta.
  set (h := Demo.host
              {[ "FFXL_CONFIG" :=
                   Demo.stringify (Fixtures.oneFeature (JObj [("enabled", JStr "yes")])) ]}
              ∅).
  destruct (unvalidated_enabled_is_strict h (initialState h)) as [A B]. split.
  - apply (A (Demo.stringify (Fixtures.oneFeature (JObj [("enabled", JStr "yes")])))).
    + reflexivity.
    + vm_compute. reflexivity.
    + vm_compute. discriminate.
    + vm_compute. reflexivity.
  - apply (B (Fixtures.oneFeature (JObj [("enabled", JStr "yes")])) "f"
             (Fixtures.user "u") [("enabled", JStr "yes")] (JStr "yes")).
    + vm_compute. reflexivity.
    + reflexivity.
    + reflexivity.
    + discriminate.
    + intros x. discriminate.
Defined.

(** C10 as stated fails: the rule has [enabled] set to a string and no list
    under [onlyForUserIds], but a string; the call returns [true] for a user
    whose [userId] occurs in that string. *)
Lemma string_for_list_counterexample :
  let props := [("enabled", JStr "yes"); ("onlyForUserIds", JStr "abc")] in
  let config := Fixtures.oneFeature (JObj props) in
  let s := Fixtures.cached Fixtures.bare config in
  fst (getConfig Fixtures.bare s) = Ok config
  /\ ruleOf config "f" = Some (JObj props)
  /\ assoc "enabled" props = Some (JStr "yes")
  /\ JStr "yes" <> JBool true
  /\ (forall ids, assoc "onlyForUserIds" props <> Some (JArr ids))
  /\ fst (isFeatureEnabled Fixtures.bare "f" (Fixtures.user "b") s) = Ok true.
Proof.
  cbv zeta. repeat split; try reflexivity; try discriminate.
Qed.

(** * Further properties of the code *)

(** ** The configuration store *)

Lemma getConfig_parsed h s text v :
  truthy (Val (cachedConfig s)) = false ->
  configString h = Some text ->
  text <> "" ->
  JSON_parse h text = Ok v ->
  fst (getConfig h s) = Ok v.
Proof.
  intros T C N J. destruct (getConfig_spec h s) as (s' & -> & _). simpl. f_equal.
  unfold configOf, loaded. rewrite T, C.
  destruct text; [congruence |]. rewrite J. reflexivity.
Qed.

(** X1: [clearCache()] followed by [getConfig()] reads the transport
    variable again: whatever was cached before, the call returns, and caches,
    what a fresh load produces. *)
Theorem clearCache_rereads (h : Host) (s : State) :
  exists s',
    (clearCache ;; getConfig h) s = (Ok (loaded h), s')
    /\ cachedConfig s' = loaded h.
Proof.
  unfold bind, clearCache, writeCache.
  destruct (getConfig_spec h (setCache JNull s)) as (s' & E & C & _).
  exists s'. rewrite E, C. split; reflexivity.
Qed.

(** X2: once [getConfig] has returned a truthy configuration, the next call
    returns the same configuration and changes nothing, also when the
    environment has changed in between: the transport variable is not read
    again until [clearCache]. *)
Theorem getConfig_caches (h h' : Host) (s s1 : State) (config : JsValue) :
  getConfig h s = (Ok config, s1) ->
  truthy (Val config) = true ->
  getConfig h' s1 = (Ok config, s1).
Proof.
  intros G T. destruct (getConfig_spec h s) as (s' & E & C & _).
  rewrite E in G. injection G as G <-. rewrite <- G at 1. rewrite <- C.
  apply getConfig_cached. rewrite C, G. exact T.
Qed.

(** The test configuration stays in force on a host that has lost its
    transport variable. *)
Lemma getConfig_caches_witness :
  exists s1,
    getConfig Demo.testHost (initialState Demo.testHost) = (Ok Demo.testConfig, s1)
    /\ getConfig Fixtures.bare s1 = (Ok Demo.testConfig, s1).
Proof.
  eexists. split.
  - vm_compute. reflexivity.
  - eapply (getConfig_caches Demo.testHost Fixtures.bare (initialState Demo.testHost)).
    + vm_compute. reflexivity.
    + reflexivity.
Defined.

(** X3: of the two transport variables, [FEATURE_FLAGS_CONFIG] wins when it
    is defined and not empty; when it is undefined or the empty string,
    [FFXL_CONFIG] is used. *)
Theorem transport_precedence (h : Host) (env : gmap string string) (s : State)
    (v : JsValue) :
  process_env h = Some env ->
  truthy (Val (cachedConfig s)) = false ->
  (forall primary,
      env !! "FEATURE_FLAGS_CONFIG" = Some primary ->
      primary <> "" ->
      JSON_parse h primary = Ok v ->
      fst (getConfig h s) = Ok v)
  /\ (forall secondary,
        env !! "FEATURE_FLAGS_CONFIG" = None \/ env !! "FEATURE_FLAGS_CONFIG" = Some "" ->
        env !! "FFXL_CONFIG" = Some secondary ->
        secondary <> "" ->
        JSON_parse h secondary = Ok v ->
        fst (getConfig h s) = Ok v).
Proof.
  intros P T. split.
  - intros primary E N J. apply (getConfig_parsed h s primary v T); try assumption.
    unfold configString. rewrite P, E. destruct primary; [congruence | reflexivity].
  - intros secondary E E' N J. apply (getConfig_parsed h s secondary v T); try assumption.
    unfold configString. rewrite P, E'. destruct E as [-> | ->]; reflexivity.
Qed.

Lemma transport_precedence_witness :
  let one := Demo.stringify (Fixtures.oneFeature (JObj [("enabled", JBool true)])) in
  let two := Demo.stringify (Fixtures.oneFeature (JObj [("enabled", JBool false)])) in
  fst (getConfig (Demo.host {[ "FEATURE_FLAGS_CONFIG" := one; "FFXL_CONFIG" := two ]} ∅)
         (initialState Fixtures.bare))
  = Ok (Fixtures.oneFeature (JObj [("enabled", JBool true)]))
  /\ fst (getConfig (Demo.host {[ "FEATURE_FLAGS_CONFIG" := ""; "FFXL_CONFIG" := two ]} ∅)
            (initialState Fixtures.bare))
     = Ok (Fixtures.oneFeature (JObj [("enabled", JBool false)])).
Proof.
  cbv zeta. split.
  - destruct (transport_precedence
                (Demo.host
                   {[ "FEATURE_FLAGS_CONFIG" :=
                        Demo.stringify
                          (Fixtures.oneFeature (JObj [("enabled", JBool true)]));
                      "FFXL_CONFIG" :=
                        Demo.stringify
                          (Fixtures.oneFeature (JObj [("enabled", JBool false)])) ]} ∅)
                _ (initialState Fixtures.bare)
                (Fixtures.oneFeature (JObj [("enabled", JBool true)]))
                eq_refl eq_refl) as [A _].
    eapply A.
    + vm_compute. reflexivity.
    + vm_compute. discriminate.
    + vm_compute. reflexivity.
  - destruct (transport_precedence
                (Demo.host
                   {[ "FEATURE_FLAGS_CONFIG" := "";
                      "FFXL_CONFIG" :=
                        Demo.stringify
                          (Fixtures.oneFeature (JObj [("enabled", JBool false)])) ]} ∅)
                _ (initialState Fixtures.bare)
                (Fixtures.oneFeature (JObj [("enabled", JBool false)]))
                eq_refl eq_refl) as [_ B].
    eapply B.
    + right. vm_compute. reflexivity.
    + vm_compute. reflexivity.
    + vm_compute. discriminate.
    + vm_compute. reflexivity.
Defined.

(** ** The evaluator *)

Lemma judge_no_list h props user :
  assoc "onlyForUserIds" props = None ->
  judge h (Val (JObj props)) user
  = Ok (match assoc "enabled" props with
        | Some (JBool true) => true
        | _ => false
        end).
Proof.
  intros E. unfold judge. cbn [truthy negb].
  rewrite (getProp_no_onlyForUserIds _ E). cbn [rbind truthy].
  apply enabled_check.
Qed.

(** X4: a feature whose rule has no [onlyForUserIds] and has [enabled: b]
    evaluates to [b] for every user and for no user. *)
Theorem global_flag (h : Host) (s : State) (config : JsValue) (featureName : string)
    (props : list (string * JsValue)) (b : bool) :
  fst (getConfig h s) = Ok config ->
  ruleOf config featureName = Some (JObj props) ->
  assoc "onlyForUserIds" props = None ->
  assoc "enabled" props = Some (JBool b) ->
  forall user, fst (isFeatureEnabled h featureName user s) = Ok b.
Proof.
  intros G R I E user.
  rewrite (isFeatureEnabled_on _ _ _ _ _ G). unfold decision.
  rewrite (verdict_rule _ _ _ _ _ R), (judge_no_list _ _ _ I), E.
  destruct b; reflexivity.
Qed.

Lemma global_flag_witness :
  fst (isFeatureEnabled Demo.testHost "test_feature_enabled" (Fixtures.user "anyone")
         (initialState Demo.testHost)) = Ok true.
Proof.
  apply (global_flag Demo.testHost (initialState Demo.testHost) Demo.testConfig
           "test_feature_enabled"
           [("enabled", JBool true); ("comment", JStr "Test feature that is enabled")]
           true).
  - vm_compute. reflexivity.
  - vm_compute. reflexivity.
  - reflexivity.
  - reflexivity.
Defined.

Lemma evaluate_userId h config featureName user1 user2 s :
  userIdOf user1 = userIdOf user2 ->
  evaluate h config featureName user1 s = evaluate h config featureName user2 s.
Proof.
  unfold userIdOf. intros U. unfold evaluate, bind, lift.
  destruct (getProp (Val config) "features") as [features |]; [| reflexivity].
  destruct (getProp features featureName) as [feature |]; [| reflexivity].
  destruct (negb (truthy feature)); [reflexivity |].
  destruct (getProp feature "onlyForUserIds") as [ids |]; [| reflexivity].
  destruct (truthy ids).
  - destruct (getProp ids "length") as [len |]; [| reflexivity].
    cbn [ret]. destruct (greaterThanZero h len); [| reflexivity].
    rewrite U. reflexivity.
  - reflexivity.
Qed.

(** X5: the user enters the evaluation through [userId] only: two users
    with the same [userId], whatever their [handle] and [email], get the same
    result and leave the same state; a user without [userId] is treated as no
    user. *)
Theorem only_userId_matters (h : Host) (featureName : string)
    (user1 user2 : option UserIdentity) (s : State) :
  userIdOf user1 = userIdOf user2 ->
  isFeatureEnabled h featureName user1 s = isFeatureEnabled h featureName user2 s.
Proof.
  intros U. unfold isFeatureEnabled, tryCatch, bind.
  destruct (getConfig h s) as [[config | e] s1]; [| reflexivity].
  rewrite (evaluate_userId h config featureName user1 user2 s1 U). reflexivity.
Qed.

Lemma only_userId_matters_witness :
  isFeatureEnabled Demo.testHost "test_feature_user_specific"
    (Some {| userId := Some "user-123"; handle := Some "ann"; email := None |})
    (initialState Demo.testHost)
  = isFeatureEnabled Demo.testHost "test_feature_user_specific"
      (Some {| userId := Some "user-123"; handle := None; email := Some "a@b.c" |})
      (initialState Demo.testHost).
Proof.
  apply (only_userId_matters Demo.testHost "test_feature_user_specific").
  reflexivity.
Defined.

Lemma judge_fields h props1 props2 user :
  assoc "enabled" props1 = assoc "enabled" props2 ->
  assoc "onlyForUserIds" props1 = assoc "onlyForUserIds" props2 ->
  judge h (Val (JObj props1)) user = judge h (Val (JObj props2)) user.
Proof.
  intros E I.
  assert (Shape : forall props,
    judge h (Val (JObj props)) user
    = (let onlyForUserIds :=
         match assoc "onlyForUserIds" props with
         | Some x => Val x
         | None => Undefined
         end in
       restricted <~
         (if truthy onlyForUserIds then
            len <~ getProp onlyForUserIds "length" ;;
            greaterThanZero h len
          else Ok false) ;;
       if restricted then
         match userIdOf user with
         | None | Some "" => Ok false
         | Some id => callIncludes onlyForUserIds id
         end
       else
         Ok (match assoc "enabled" props with
             | Some (JBool true) => true
             | _ => false
             end))).
  { intros props. unfold judge. cbn [truthy negb].
    rewrite (getProp_object (JObj props)) by reflexivity.
    cbn [ownProperty inherited]. cbn [rbind].
    replace (memberOf "onlyForUserIds" objectPrototype) with false by reflexivity.
    rewrite <- (enabled_check props). cbv zeta.
    destruct (assoc "onlyForUserIds" props); reflexivity. }
  rewrite !Shape, E, I. reflexivity.
Qed.

(** X6: of a rule that is an object, only the properties [enabled] and
    [onlyForUserIds] enter the evaluation: two rules that agree on them give
    the same result for every user, so a [comment], or any other key, never
    changes the outcome. *)
Theorem only_enabled_and_list_matter (h : Host) (s1 s2 : State)
    (config1 config2 : JsValue) (name1 name2 : string)
    (props1 props2 : list (string * JsValue)) :
  fst (getConfig h s1) = Ok config1 ->
  fst (getConfig h s2) = Ok config2 ->
  ruleOf config1 name1 = Some (JObj props1) ->
  ruleOf config2 name2 = Some (JObj props2) ->
  assoc "enabled" props1 = assoc "enabled" props2 ->
  assoc "onlyForUserIds" props1 = assoc "onlyForUserIds" props2 ->
  forall user,
    fst (isFeatureEnabled h name1 user s1) = fst (isFeatureEnabled h name2 user s2).
Proof.
  intros G1 G2 R1 R2 E I user.
  rewrite (isFeatureEnabled_on _ _ _ _ _ G1), (isFeatureEnabled_on _ _ _ _ _ G2).
  unfold decision.
  rewrite (verdict_rule _ _ _ _ _ R1), (verdict_rule _ _ _ _ _ R2).
  rewrite (judge_fields h props1 props2 user E I). reflexivity.
Qed.

(** The user-specific feature of the test-suite with and without its
    comment. *)
Lemma only_enabled_and_list_matter_witness :
  fst (isFeatureEnabled Demo.testHost "test_feature_user_specific"
         (Fixtures.user "user-456") (initialState Demo.testHost))
  = fst (isFeatureEnabled Demo.testHost "f" (Fixtures.user "user-456")
           (Fixtures.cached Demo.testHost
              (Fixtures.oneFeature
                 (JObj [("extra", JNum 1);
                        ("onlyForUserIds", JArr [JStr "user-123"; JStr "user-456"])])))).
Proof.
  apply (only_enabled_and_list_matter Demo.testHost (initialState Demo.testHost)
           (Fixtures.cached Demo.testHost
              (Fixtures.oneFeature
                 (JObj [("extra", JNum 1);
                        ("onlyForUserIds", JArr [JStr "user-123"; JStr "user-456"])])))
           Demo.testConfig
           (Fixtures.oneFeature
              (JObj [("extra", JNum 1);
                     ("onlyForUserIds", JArr [JStr "user-123"; JStr "user-456"])]))
           "test_feature_user_specific" "f"
           [("onlyForUserIds", JArr [JStr "user-123"; JStr "user-456"]);
            ("comment", JStr "Feature for specific users")]
           [("extra", JNum 1);
            ("onlyForUserIds", JArr [JStr "user-123"; JStr "user-456"])]);
    vm_compute; reflexivity.
Defined.

(** ** The validator *)

Lemma validateFeatureConfig_iff name rule :
  validateFeatureConfig name rule = Ok tt <-> wellShaped rule = true.
Proof.
  pose proof (validateFeatureConfig_spec name rule) as S.
  destruct (wellShaped rule).
  - split; auto.
  - destruct S as [msg S]. rewrite S. split; discriminate.
Qed.

Lemma validateEach_iff l :
  validateEach l = Ok tt <-> forallb (fun entry => wellShaped (snd entry)) l = true.
Proof.
  induction l as [| [n r] l IH]; [split; reflexivity |].
  cbn [validateEach forallb snd].
  pose proof (validateFeatureConfig_spec n r) as S.
  destruct (wellShaped r).
  - rewrite S. cbn [rbind andb]. exact IH.
  - destruct S as [msg ->]. cbn [rbind andb]. split; discriminate.
Qed.

Lemma validateConfig_iff doc :
  validateConfig (Val doc) = Ok doc <->
  notAnObject (Val doc) = false
  /\ exists features,
       ownProperty doc "features" = Some features
       /\ notAnObject (Val features) = false
       /\ forallb (fun entry => wellShaped (snd entry)) (entries features) = true.
Proof.
  split.
  - intros V. destruct (notAnObject (Val doc)) eqn:N.
    { destruct doc; discriminate. }
    split; [reflexivity |].
    rewrite (validateConfig_object _ N) in V.
    destruct (ownProperty doc "features") as [features |]; [| discriminate].
    exists features. split; [reflexivity |].
    destruct (notAnObject (Val features)); [discriminate |].
    split; [reflexivity |]. apply validateEach_iff.
    destruct (validateEach (entries features)) as [[] |]; [reflexivity | discriminate].
  - intros (N & features & F & N' & W).
    rewrite (validateConfig_object _ N), F, N'.
    apply validateEach_iff in W. rewrite W. reflexivity.
Qed.

(** X7: the validator accepts exactly the documents of the data model.  A
    feature entry passes if and only if it is an object with [enabled] or
    [onlyForUserIds], whose [enabled], if present, is a boolean, whose
    [onlyForUserIds], if present, is a list of strings and whose [comment], if
    present, is a string; a document passes, and is returned unchanged, if and
    only if it is an object whose [features] is an object all of whose entries
    pass.  The name of an entry plays no role. *)
Theorem validator_accepts_exactly :
  (forall name rule,
      validateFeatureConfig name rule = Ok tt <-> wellShaped rule = true)
  /\ (forall doc,
        validateConfig (Val doc) = Ok doc <->
        notAnObject (Val doc) = false
        /\ exists features,
             ownProperty doc "features" = Some features
             /\ notAnObject (Val features) = false
             /\ forallb (fun entry => wellShaped (snd entry)) (entries features) = true)
  /\ (forall data doc, validateConfig data = Ok doc -> data = Val doc).
Proof.
  split; [exact validateFeatureConfig_iff |]. split; [exact validateConfig_iff |].
  intros data doc V.
    destruct (validateConfig_outcome data) as [(d & -> & K) | [msg K]]; congruence.
Qed.

(** The configuration of the test-suite passes. *)
Lemma validator_accepts_exactly_witness :
  validateConfig (Val Demo.testConfig) = Ok Demo.testConfig.
Proof.
  destruct validator_accepts_exactly as (_ & H & _). apply H.
  split; [reflexivity |].
  eexists. split; [reflexivity |]. split; reflexivity.
Defined.

(** ** Evaluation of validated configurations *)

Lemma assoc_In {A : Type} k (l : list (string * A)) v :
  assoc k l = Some v -> In (k, v) l.
Proof.
  induction l as [| [k' v'] l IH]; [discriminate |].
  cbn [assoc]. destruct (String.eqb k k') eqn:E.
  - apply String.eqb_eq in E. intros [= ->]. left. congruence.
  - intros H. right. apply IH, H.
Qed.

Lemma enabled_steps_ok rule :
  notAnObject (Val rule) = false ->
  exists b,
    (hasEnabled <~ hasProperty "enabled" (Val rule) ;;
     if hasEnabled then
       enabled <~ getProp (Val rule) "enabled" ;;
       Ok (strictEqTrue enabled)
     else Ok false) = Ok b.
Proof.
  intros N. rewrite (hasProperty_object _ _ N). cbn [rbind].
  destruct (_ || _); [| eauto].
  rewrite (getProp_object _ _ N). cbn [rbind]. eauto.
Qed.

Lemma wellShaped_judge h rule user :
  wellShaped rule = true -> exists b, judge h (Val rule) user = Ok b.
Proof.
  unfold wellShaped. rewrite !andb_true_iff.
  intros ((((N & _) & _) & I) & _).
  apply negb_true_iff in N.
  destruct (rule_keys_not_inherited rule N) as (_ & K & _).
  unfold judge.
  assert (T : truthy (Val rule) = true) by (destruct rule; try discriminate; reflexivity).
  rewrite T. cbn [negb].
  rewrite (getProp_object _ "onlyForUserIds" N), K. cbn [rbind].
  destruct (ownProperty rule "onlyForUserIds") as [[| | | | ids |] |];
    try discriminate; cbn [truthy].
  - cbn [getProp ownProperty String.eqb Ascii.eqb Bool.eqb rbind greaterThanZero].
    destruct (Z.ltb 0 (Z.of_nat (length ids))).
    + destruct (userIdOf user) as [[| c id] |]; cbn [callIncludes]; eauto.
    + apply enabled_steps_ok, N.
  - apply enabled_steps_ok, N.
Qed.

Lemma validated_rules config rules :
  validateConfig (Val config) = Ok config ->
  ownProperty config "features" = Some (JObj rules) ->
  forall name rule, assoc name rules = Some rule -> wellShaped rule = true.
Proof.
  intros V F name rule A.
  apply validateConfig_iff in V. destruct V as (_ & features & F' & _ & W).
  rewrite F in F'. injection F' as <-.
  rewrite forallb_forall in W. apply (W (name, rule)).
  apply assoc_In, A.
Qed.

Lemma validated_verdict h config rules featureName user :
  validateConfig (Val config) = Ok config ->
  ownProperty config "features" = Some (JObj rules) ->
  exists b, verdict h config featureName user = Ok b.
Proof.
  intros V F. rewrite verdict_judge, (getProp_own _ _ _ F). cbn [rbind].
  destruct (assoc featureName rules) as [rule |] eqn:A.
  - rewrite (getProp_field _ _ _ A). cbn [rbind].
    apply wellShaped_judge. eapply validated_rules; eassumption.
  - rewrite (getProp_object (JObj rules) featureName eq_refl).
    cbn [ownProperty]. rewrite A. cbn [rbind].
    destruct (inherited (JObj rules) featureName); eauto.
Qed.

(** X8: on a configuration that passes the validator and whose [features]
    is a mapping, the [try] block of [isFeatureEnabled] itself returns the
    answer, for every name and every user: the [catch] is never entered, so no
    error line is written and the state after the call is the one the [try]
    block left. *)
Theorem validated_evaluation_is_clean (h : Host) (s : State) (config : JsValue)
    (rules : list (string * JsValue)) :
  fst (getConfig h s) = Ok config ->
  validateConfig (Val config) = Ok config ->
  ownProperty config "features" = Some (JObj rules) ->
  forall featureName user,
    exists b s',
      attempt h featureName user s = (Ok b, s')
      /\ isFeatureEnabled h featureName user s = (Ok b, s').
Proof.
  intros G V F featureName user.
  destruct (getConfig_spec h s) as (s1 & E1 & _).
  rewrite E1 in G. simpl in G. injection G as G. rewrite G in E1.
  destruct (validated_verdict h config rules featureName user V F) as [b B].
  destruct (evaluate_verdict h config featureName user s1) as (s' & E2 & _).
  rewrite B in E2. exists b, s'.
  unfold isFeatureEnabled, tryCatch. fold (attempt h featureName user).
  assert (A : attempt h featureName user s = (Ok b, s')).
  { unfold attempt, bind. rewrite E1. exact E2. }
  rewrite A. split; reflexivity.
Qed.

(** In development mode on the test configuration: a known feature writes
    only the line about the load. *)
Lemma validated_evaluation_is_clean_witness :
  let h := Demo.host {[ "NODE_ENV" := "dev";
                        "FFXL_CONFIG" := Demo.stringify Demo.testConfig ]} ∅ in
  exists b s',
    attempt h "test_feature_disabled" None (initialState h) = (Ok b, s')
    /\ isFeatureEnabled h "test_feature_disabled" None (initialState h) = (Ok b, s').
Proof.
  cbv zeta.
  eapply (validated_evaluation_is_clean _ _ Demo.testConfig).
  - vm_compute. reflexivity.
  - vm_compute. reflexivity.
  - reflexivity.
Defined.

(** ** The lookups of the evaluator *)

(** The shape shared by the lookups: [getConfig()] followed by steps that
    only compute, inside a [try] whose [catch] logs and returns a default. *)
Lemma guarded_spec {A : Type} h (k : JsValue -> M A) (f : JsValue -> JsResult A)
    (line : JsError -> string) (default : A) s :
  (forall config s0, k config s0 = (f config, s0)) ->
  exists s',
    tryCatch (config <- getConfig h ;; k config)
      (fun error => Logger_error (line error) ;; ret default) s
    = (Ok (match f (configOf h s) with
           | Ok a => a
           | Throw _ => default
           end), s')
    /\ cachedConfig s' = configOf h s
    /\ sameLogger s s'.
Proof.
  intros K. unfold tryCatch, bind.
  destruct (getConfig_spec h s) as (s1 & -> & C1 & L1 & L1').
  rewrite K. destruct (f (configOf h s)) as [a | e].
  - exists s1. repeat split; assumption.
  - destruct (Logger_error_run (line e) s1) as (s2 & -> & C2 & L2 & L2').
    exists s2. unfold ret. repeat split; congruence.
Qed.

Lemma getAllFeatureNames_spec h s :
  exists s',
    getAllFeatureNames h s = (Ok (keysOf (configOf h s)), s')
    /\ cachedConfig s' = configOf h s
    /\ sameLogger s s'.
Proof.
  unfold getAllFeatureNames, keysOf.
  apply (guarded_spec h _
           (fun config => features <~ getProp (Val config) "features" ;;
                          objectKeys features)).
  intros config s0. unfold bind, lift.
  destruct (getProp (Val config) "features"); reflexivity.
Qed.

Lemma namesAt_keysOf h s : namesAt h s = keysOf (configOf h s).
Proof.
  unfold namesAt. destruct (getAllFeatureNames_spec h s) as (s' & -> & _). reflexivity.
Qed.

Lemma featureExists_spec h featureName s :
  exists s',
    featureExists h featureName s
    = (Ok (match (features <~ getProp (Val (configOf h s)) "features" ;;
                  hasProperty featureName features) with
           | Ok b => b
           | Throw _ => false
           end), s')
    /\ cachedConfig s' = configOf h s
    /\ sameLogger s s'.
Proof.
  unfold featureExists.
  apply (guarded_spec h _
           (fun config => features <~ getProp (Val config) "features" ;;
                          hasProperty featureName features)).
  intros config s0. unfold bind, lift.
  destruct (getProp (Val config) "features"); reflexivity.
Qed.

Lemma getFeatureConfig_spec h featureName s :
  exists s',
    getFeatureConfig h featureName s
    = (Ok (match lookupFeature (configOf h s) featureName with
           | Ok feature => if truthy feature then feature else Val JNull
           | Throw _ => Val JNull
           end), s')
    /\ cachedConfig s' = configOf h s
    /\ sameLogger s s'.
Proof.
  unfold getFeatureConfig.
  destruct (guarded_spec h
              (fun config =>
                 features <- lift (getProp (Val config) "features") ;;
                 feature <- lift (getProp features featureName) ;;
                 ret (if truthy feature then feature else Val JNull))
              (fun config =>
                 feature <~ lookupFeature config featureName ;;
                 Ok (if truthy feature then feature else Val JNull))
              (fun error =>
                 "Error getting feature config for " +:+ dq +:+ featureName +:+ dq
                 +:+ ": " +:+ message error)
              (Val JNull) s) as (s' & E & C).
  { intros config s0. unfold bind, lift, ret, lookupFeature.
    destruct (getProp (Val config) "features") as [features |]; [| reflexivity].
    cbn [rbind]. destruct (getProp features featureName); reflexivity. }
  exists s'. split; [| exact C]. rewrite E. f_equal. f_equal.
  destruct (lookupFeature (configOf h s) featureName); reflexivity.
Qed.

Lemma is_Some_assoc {A : Type} name (l : list (string * A)) :
  bool_decide (is_Some (assoc name l)) = memberOf name (map fst l).
Proof.
  unfold memberOf. induction l as [| [k v] l IH].
  - apply bool_decide_false. intros [? ?]. discriminate.
  - cbn [assoc map fst existsb]. destruct (String.eqb name k).
    + apply bool_decide_true. eauto.
    + exact IH.
Qed.

Lemma memberOf_In name l : memberOf name l = true <-> In name l.
Proof.
  unfold memberOf. rewrite existsb_exists. split.
  - intros (x & I & E). apply String.eqb_eq in E. subst. exact I.
  - intros I. exists name. split; [exact I | apply String.eqb_refl].
Qed.

(** X9: when [features] is a mapping, [getAllFeatureNames()] returns its
    keys in order, and [featureExists(name)] is [true] exactly for these keys
    and for the names of the members of [Object.prototype] ([toString],
    [constructor], ...): it tests with [in], which follows the prototype
    chain. *)
Theorem names_and_existence (h : Host) (s : State) (config : JsValue)
    (rules : list (string * JsValue)) :
  fst (getConfig h s) = Ok config ->
  ownProperty config "features" = Some (JObj rules) ->
  fst (getAllFeatureNames h s) = Ok (map fst rules)
  /\ forall name,
       exists b,
         fst (featureExists h name s) = Ok b
         /\ (b = true <-> In name (map fst rules) \/ In name objectPrototype).
Proof.
  intros G F.
  assert (C : configOf h s = config).
  { destruct (getConfig_spec h s) as (s1 & E1 & _). rewrite E1 in G.
    simpl in G. congruence. }
  split.
  - destruct (getAllFeatureNames_spec h s) as (s' & -> & _). cbn [fst].
    rewrite C. unfold keysOf. rewrite (getProp_own _ _ _ F). reflexivity.
  - intros name. destruct (featureExists_spec h name s) as (s' & -> & _). cbn [fst].
    rewrite C, (getProp_own _ _ _ F). cbn [rbind hasProperty ownProperty inherited].
    eexists. split; [reflexivity |].
    rewrite orb_true_iff, is_Some_assoc, !memberOf_In. reflexivity.
Qed.

(** On the test configuration, [toString] exists although it is not
    listed. *)
Lemma names_and_existence_witness :
  fst (getAllFeatureNames Demo.testHost (initialState Demo.testHost))
  = Ok ["test_feature_enabled"; "test_feature_disabled"; "test_feature_user_specific";
        "test_feature_combined"]
  /\ exists b,
       fst (featureExists Demo.testHost "toString" (initialState Demo.testHost)) = Ok b
       /\ (b = true <->
           In "toString" ["test_feature_enabled"; "test_feature_disabled";
                          "test_feature_user_specific"; "test_feature_combined"]
           \/ In "toString" objectPrototype).
Proof.
  destruct (names_and_existence Demo.testHost (initialState Demo.testHost)
              Demo.testConfig
              [("test_feature_enabled",
                JObj [("enabled", JBool true);
                      ("comment", JStr "Test feature that is enabled")]);
               ("test_feature_disabled",
                JObj [("enabled", JBool false);
                      ("comment", JStr "Test feature that is disabled")]);
               ("test_feature_user_specific",
                JObj [("onlyForUserIds", JArr [JStr "user-123"; JStr "user-456"]);
                      ("comment", JStr "Feature for specific users")]);
               ("test_feature_combined",
                JObj [("enabled", JBool false); ("onlyForUserIds", JArr [JStr "user-789"]);
                      ("comment", JStr "Combined config - user list takes precedence")])])
    as [A B].
  - vm_compute. reflexivity.
  - reflexivity.
  - split; [exact A | exact (B "toString")].
Defined.

Lemma filter_same {A : Type} (f g : A -> bool) (l : list A) :
  (forall x, f x = g x) -> List.filter f l = List.filter g l.
Proof.
  intros E. induction l as [| x l IH]; [reflexivity |].
  cbn [List.filter]. rewrite E, IH. reflexivity.
Qed.

Lemma filterEnabled_spec h user names :
  forall s,
    fst (filterEnabled h names user s)
    = Ok (List.filter (fun name => answer h s name user) names).
Proof.
  induction names as [| name rest IH]; intros s; [reflexivity |].
  cbn [filterEnabled List.filter]. unfold bind.
  destruct (isFeatureEnabled_answer h name user s) as (s1 & -> & St).
  specialize (IH s1). destruct (filterEnabled h rest user s1) as [r s2].
  cbn [fst] in IH. subst r. unfold ret. cbn [fst].
  rewrite (filter_same _ _ rest St). reflexivity.
Qed.

Lemma getEnabledFeatures_keys h user s :
  fst (getEnabledFeatures h user s)
  = Ok (List.filter (fun name => answer h s name user) (keysOf (configOf h s))).
Proof.
  unfold getEnabledFeatures, tryCatch, bind at 1.
  destruct (getConfig_spec h s) as (s1 & -> & C1 & _).
  assert (St : forall name, answer h s1 name user = answer h s name user).
  { intros name. apply answer_stable, C1. }
  unfold keysOf, bind, lift.
  destruct (getProp (Val (configOf h s)) "features") as [features | e]; cbn [rbind].
  - destruct (objectKeys features) as [names | e].
    + pose proof (filterEnabled_spec h user names s1) as F.
      destruct (filterEnabled h names user s1) as [r s2]. cbn [fst] in F. subst r.
      cbn [fst]. rewrite (filter_same _ _ names St). reflexivity.
    + destruct (Logger_error_run ("Error getting enabled features: " +:+ message e) s1)
        as (s2 & -> & _).
      reflexivity.
  - destruct (Logger_error_run ("Error getting enabled features: " +:+ message e) s1)
      as (s2 & -> & _).
    reflexivity.
Qed.

(** X10: [getEnabledFeatures(user)] returns the names that
    [getAllFeatureNames()] returns, in the same order, keeping exactly those
    for which [isFeatureEnabled(name, user)] is [true]; it never raises. *)
Theorem getEnabledFeatures_filters (h : Host) (user : option UserIdentity) (s : State) :
  fst (getEnabledFeatures h user s)
  = Ok (List.filter (fun name => answer h s name user) (namesAt h s))
  /\ exists names, fst (getAllFeatureNames h s) = Ok names /\ namesAt h s = names.
Proof.
  split.
  - rewrite namesAt_keysOf. apply getEnabledFeatures_keys.
  - unfold namesAt. destruct (getAllFeatureNames_spec h s) as (s' & -> & _).
    cbn [fst]. eauto.
Qed.

Lemma collectFlags_spec h user featureNames :
  forall result s,
    exists flags s',
      collectFlags h featureNames user result s = (Ok flags, s')
      /\ forall name,
           flags !! name
           = if memberOf name featureNames && negb (String.eqb name "__proto__")
             then Some (answer h s name user)
             else result !! name.
Proof.
  induction featureNames as [| n rest IH]; intros result s.
  - exists result, s. split; [reflexivity |]. intros name. reflexivity.
  - cbn [collectFlags]. unfold bind.
    destruct (isFeatureEnabled_answer h n user s) as (s1 & -> & St).
    destruct (IH (setFlag n (answer h s n user) result) s1) as (flags & s' & -> & L).
    exists flags, s'. split; [reflexivity |].
    intros name. rewrite L, St. unfold memberOf. cbn [existsb].
    fold (memberOf name rest).
    destruct (memberOf name rest && negb (String.eqb name "__proto__")) eqn:M.
    + apply andb_true_iff in M. destruct M as [-> ->].
      rewrite orb_true_r. reflexivity.
    + unfold setFlag. destruct (String.eqb name n) eqn:E.
      * apply String.eqb_eq in E. subst n. cbn [orb].
        destruct (String.eqb name "__proto__"); cbn [negb andb]; [reflexivity |].
        apply lookup_insert_eq.
      * cbn [orb]. rewrite M.
        destruct (String.eqb n "__proto__"); [reflexivity |].
        apply lookup_insert_ne. intros ->. rewrite String.eqb_refl in E. discriminate.
Qed.

(** X11: [getFeatureFlags(names, user)] returns an object that holds, for
    every requested name, the answer of [isFeatureEnabled(name, user)], and
    nothing else; a name requested twice appears once.  The name [__proto__]
    is the exception: assigning a boolean to it creates no property. *)
Theorem getFeatureFlags_spec (h : Host) (featureNames : list string)
    (user : option UserIdentity) (s : State) :
  exists flags s',
    getFeatureFlags h featureNames user s = (Ok flags, s')
    /\ forall name,
         flags !! name
         = if memberOf name featureNames && negb (String.eqb name "__proto__")
           then Some (answer h s name user)
           else None.
Proof.
  unfold getFeatureFlags.
  destruct (collectFlags_spec h user featureNames ∅ s) as (flags & s' & E & L).
  exists flags, s'. split; [exact E |].
  intros name. rewrite L, lookup_empty. reflexivity.
Qed.

Lemma verdict_lookup h config featureName user :
  verdict h config featureName user
  = (feature <~ lookupFeature config featureName ;; judge h feature user).
Proof.
  rewrite verdict_judge. unfold lookupFeature.
  destruct (getProp (Val config) "features"); reflexivity.
Qed.

(** X12: [getFeatureConfig(name)] never raises and never returns
    [undefined]; it returns the rule stored under the name when that rule is
    truthy; and whenever it returns [null], [isFeatureEnabled(name, user)] is
    [false] for every user. *)
Theorem getFeatureConfig_coherent (h : Host) (featureName : string) (s : State) :
  exists r,
    fst (getFeatureConfig h featureName s) = Ok r
    /\ r <> Undefined
    /\ (r = Val JNull -> forall user, answer h s featureName user = false)
    /\ (forall config rule,
          fst (getConfig h s) = Ok config ->
          ruleOf config featureName = Some rule ->
          truthy (Val rule) = true ->
          r = Val rule).
Proof.
  destruct (getFeatureConfig_spec h featureName s) as (s' & -> & _). cbn [fst].
  eexists. split; [reflexivity |]. split; [| split].
  - destruct (lookupFeature (configOf h s) featureName) as [feature |];
      [| discriminate].
    destruct (truthy feature) eqn:T; [| discriminate].
    destruct feature; discriminate.
  - intros N user. rewrite answer_decision. unfold decision.
    rewrite verdict_lookup.
    destruct (lookupFeature (configOf h s) featureName) as [feature |]; [| reflexivity].
    cbn [rbind]. destruct (truthy feature) eqn:T.
    + subst feature. discriminate T.
    + unfold judge. rewrite T. reflexivity.
  - intros config rule G R T.
    assert (C : configOf h s = config).
    { destruct (getConfig_spec h s) as (s1 & E1 & _). rewrite E1 in G.
      simpl in G. congruence. }
    rewrite C. destruct (ruleOf_Some _ _ _ R) as (features & F & E).
    unfold lookupFeature. rewrite (getProp_own _ _ _ F). cbn [rbind].
    rewrite (getProp_own _ _ _ E), T. reflexivity.
Qed.

(** X13: on a configuration without a [features] property of its own (such
    as the parsed transport strings [{}] and [5]), every lookup falls back to
    its default without raising: no names, no feature exists, every rule is
    [null], no feature is enabled. *)
Theorem without_features (h : Host) (s : State) (config : JsValue) :
  fst (getConfig h s) = Ok config ->
  ownProperty config "features" = None ->
  fst (getAllFeatureNames h s) = Ok []
  /\ (forall name, fst (featureExists h name s) = Ok false)
  /\ (forall name, fst (getFeatureConfig h name s) = Ok (Val JNull))
  /\ (forall user, fst (getEnabledFeatures h user s) = Ok [])
  /\ (forall name user, fst (isFeatureEnabled h name user s) = Ok false).
Proof.
  intros G F.
  assert (C : configOf h s = config).
  { destruct (getConfig_spec h s) as (s1 & E1 & _). rewrite E1 in G.
    simpl in G. congruence. }
  assert (K : keysOf config = []).
  { unfold keysOf. destruct (getProp_features_absent _ F) as [[e ->] | ->]; reflexivity. }
  split; [| split; [| split; [| split]]].
  - destruct (getAllFeatureNames_spec h s) as (s' & -> & _). cbn [fst].
    rewrite C, K. reflexivity.
  - intros name. destruct (featureExists_spec h name s) as (s' & -> & _). cbn [fst].
    rewrite C. destruct (getProp_features_absent _ F) as [[e ->] | ->]; reflexivity.
  - intros name. destruct (getFeatureConfig_spec h name s) as (s' & -> & _). cbn [fst].
    rewrite C. unfold lookupFeature.
    destruct (getProp_features_absent _ F) as [[e ->] | ->]; reflexivity.
  - intros user. rewrite getEnabledFeatures_keys, C, K. reflexivity.
  - intros name user. rewrite (isFeatureEnabled_on _ _ _ _ _ G). f_equal.
    apply decision_absent. unfold ruleOf. rewrite F. reflexivity.
Qed.

Lemma without_features_witness :
  let h := Demo.host {[ "FFXL_CONFIG" := "{}" ]} ∅ in
  fst (getAllFeatureNames h (initialState h)) = Ok []
  /\ (forall name, fst (featureExists h name (initialState h)) = Ok false)
  /\ (forall name, fst (getFeatureConfig h name (initialState h)) = Ok (Val JNull))
  /\ (forall user, fst (getEnabledFeatures h user (initialState h)) = Ok [])
  /\ (forall name user, fst (isFeatureEnabled h name user (initialState h)) = Ok false).
Proof.
  cbv zeta.
  apply (without_features (Demo.host {[ "FFXL_CONFIG" := "{}" ]} ∅) _ (JObj [])).
  - vm_compute. reflexivity.
  - reflexivity.
Defined.

(** ** The loader *)

Lemma quiet_throw {A : Type} (e : JsError) : quiet (@throw A e).
Proof. exists (Throw e). intros s. split; [reflexivity | apply sameModule_refl]. Qed.

Lemma quiet_tryCatch {A : Type} (m : M A) (handler : JsError -> M A) :
  quiet m -> (forall e, quiet (handler e)) -> quiet (tryCatch m handler).
Proof.
  intros [r Hm] Hh. destruct r as [a | e].
  - exists (Ok a). intros s. unfold tryCatch.
    destruct (Hm s) as [E S1]. destruct (m s) as [r' s']. simpl in *. subst r'. auto.
  - destruct (Hh e) as [rb Hb]. exists rb. intros s. unfold tryCatch.
    destruct (Hm s) as [E S1]. destruct (m s) as [r' s']. simpl in *. subst r'.
    destruct (Hb s') as [E' S2]. split; [exact E' |].
    eapply sameModule_trans; eassumption.
Qed.

Lemma quiet_getFeatureFlagsPath h : quiet (getFeatureFlagsPath h).
Proof.
  unfold getFeatureFlagsPath. destruct (process_env h) as [env |]; [| apply quiet_throw].
  destruct (orElse _ _) as [[| c p] |];
    (apply quiet_bind; [apply quiet_Logger_info | intros _; apply quiet_ret]).
Qed.

Lemma quiet_loadFeatureFlags h : quiet (loadFeatureFlags h).
Proof.
  unfold loadFeatureFlags. destruct (detectEnvironment h); [apply quiet_throw |].
  apply quiet_bind; [apply quiet_getFeatureFlagsPath | intros filePath].
  apply quiet_tryCatch.
  - destruct (negb (fs_existsSync h filePath)); [apply quiet_throw |].
    apply quiet_bind; [apply quiet_lift | intros text].
    apply quiet_bind; [apply quiet_lift | intros data].
    apply quiet_bind; [apply quiet_lift | intros config].
    apply quiet_bind; [apply quiet_Logger_info | intros _].
    apply quiet_bind; [apply quiet_lift | intros features].
    apply quiet_bind; [apply quiet_Logger_info | intros _; apply quiet_ret].
  - intros e. destruct (isValidationError e); [| destruct (isYAMLException e)];
      (apply quiet_bind; [apply quiet_Logger_error | intros _; apply quiet_throw]).
Qed.

(** X14: the loader neither reads nor writes the cache of [getConfig]: the
    result of [loadFeatureFlags] and of [loadFeatureFlagsAsString] is the same
    in every state, and the calls change nothing but the output.  A loaded
    configuration reaches the evaluator only through the transport
    variable. *)
Theorem loader_ignores_cache (h : Host) (s1 s2 : State) :
  fst (loadFeatureFlags h s1) = fst (loadFeatureFlags h s2)
  /\ fst (loadFeatureFlagsAsString h s1) = fst (loadFeatureFlagsAsString h s2)
  /\ sameModule s1 (snd (loadFeatureFlags h s1))
  /\ sameModule s1 (snd (loadFeatureFlagsAsString h s1)).
Proof.
  assert (Q : quiet (loadFeatureFlagsAsString h)).
  { unfold loadFeatureFlagsAsString.
    apply quiet_bind; [apply quiet_loadFeatureFlags | intros c; apply quiet_ret]. }
  destruct (quiet_loadFeatureFlags h) as [r Hr]. destruct Q as [r' Hr'].
  destruct (Hr s1) as [A1 B1]. destruct (Hr s2) as [A2 _].
  destruct (Hr' s1) as [C1 D1]. destruct (Hr' s2) as [C2 _].
  repeat split; try congruence; try apply B1; apply D1.
Qed.

Lemma validated_has_features data config :
  validateConfig data = Ok config ->
  exists features, getProp (Val config) "features" = Ok features.
Proof.
  intros V. destruct (validateConfig_outcome data) as [(doc & -> & K) | [msg K]];
    [| congruence].
  assert (doc = config) as -> by congruence.
  apply validateConfig_iff in K. destruct K as (_ & features & F & _).
  exists (Val features). apply getProp_own, F.
Qed.

(** The loader in terms of its outcome. *)
Lemma loadFeatureFlags_outcome h s filePath s1 :
  detectEnvironment h = node ->
  getFeatureFlagsPath h s = (Ok filePath, s1) ->
  fst (loadFeatureFlags h s) = loadOutcome h filePath.
Proof.
  intros D P. unfold loadFeatureFlags, loadOutcome. rewrite D.
  unfold bind at 1. rewrite P. unfold tryCatch.
  assert (Handler : forall e s0,
    fst ((if isValidationError e then
            Logger_error ("Feature flags validation failed: " +:+ message e) ;;
            @throw JsValue e
          else if isYAMLException e then
            Logger_error ("Failed to parse feature flags YAML: " +:+ message e) ;;
            throw (FeatureFlagValidationError ("Invalid YAML syntax: " +:+ message e))
          else
            Logger_error ("Failed to load feature flags: " +:+ message e) ;; throw e) s0)
    = Throw (rethrown e)).
  { intros e s0. unfold bind, throw, rethrown.
    destruct (isValidationError e); [| destruct (isYAMLException e)];
      match goal with |- context [Logger_error ?m s0] =>
        destruct (Logger_error_run m s0) as (s3 & -> & _) end;
      reflexivity. }
  destruct (negb (fs_existsSync h filePath)).
  { unfold throw at 1. rewrite Handler. reflexivity. }
  unfold bind at 1, lift at 1.
  destruct (fs_readFileSync h filePath) as [text | e]; [| apply Handler].
  unfold bind at 1, lift at 1. cbn [rbind].
  destruct (yaml_load h text) as [data | e]; [| apply Handler].
  unfold bind at 1, lift at 1. cbn [rbind].
  destruct (validateConfig data) as [config | e] eqn:V; [| apply Handler].
  unfold bind at 1.
  destruct (Logger_info_run ("Successfully loaded feature flags from " +:+ filePath) s1)
    as (s2 & -> & _).
  unfold bind at 1, lift at 1.
  destruct (validated_has_features _ _ V) as [features ->].
  unfold bind at 1.
  match goal with |- context [Logger_info ?m s2] =>
    destruct (Logger_info_run m s2) as (s3 & -> & _) end.
  reflexivity.
Qed.

Lemma rethrown_not_yaml e : isYAMLException (rethrown e) = false.
Proof.
  unfold rethrown. destruct e; reflexivity.
Qed.

(** X15: no [YAMLException] leaves [loadFeatureFlags]: a syntax error of the
    YAML parser is turned into a [FeatureFlagValidationError] whose message is
    [Invalid YAML syntax: ] followed by the parser's message. *)
Theorem yaml_errors_are_wrapped (h : Host) (s : State) :
  (forall e s', loadFeatureFlags h s = (Throw e, s') -> isYAMLException e = false)
  /\ (forall filePath s1 text msg,
        detectEnvironment h = node ->
        getFeatureFlagsPath h s = (Ok filePath, s1) ->
        fs_existsSync h filePath = true ->
        fs_readFileSync h filePath = Ok text ->
        yaml_load h text = Throw (YAMLException msg) ->
        fst (loadFeatureFlags h s)
        = Throw (FeatureFlagValidationError ("Invalid YAML syntax: " +:+ msg))).
Proof.
  split.
  - intros e s' L.
    destruct (detectEnvironment h) eqn:D.
    { unfold loadFeatureFlags in L. rewrite D in L. injection L as <- _. reflexivity. }
    destruct (getFeatureFlagsPath h s) as [[filePath | e0] s1] eqn:P.
    + pose proof (loadFeatureFlags_outcome h s filePath s1 D P) as O.
      rewrite L in O. cbn [fst] in O. unfold loadOutcome in O.
      destruct (negb (fs_existsSync h filePath)); [injection O as ->; reflexivity |].
      destruct (_ <~ fs_readFileSync h filePath ;; _) as [c | e1]; [discriminate |].
      injection O as ->. apply rethrown_not_yaml.
    + unfold loadFeatureFlags in L. rewrite D in L. unfold bind in L. rewrite P in L.
      injection L as <- _.
      unfold getFeatureFlagsPath in P.
      destruct (process_env h) as [env |].
      * destruct (orElse _ _) as [[| c p] |]; unfold bind, ret in P;
          match type of P with context [Logger_info ?m s] =>
            destruct (Logger_info_run m s) as (s2 & E2 & _); rewrite E2 in P end;
          discriminate P.
      * injection P as <- _. reflexivity.
  - intros filePath s1 text msg D P X R Y.
    rewrite (loadFeatureFlags_outcome h s filePath s1 D P).
    unfold loadOutcome. rewrite X, R. cbn [negb rbind]. rewrite Y. reflexivity.
Qed.

Lemma yaml_errors_are_wrapped_witness :
  fst (loadFeatureFlags Fixtures.broken (initialState Fixtures.broken))
  = Throw (FeatureFlagValidationError ("Invalid YAML syntax: " +:+ "Unexpected token in JSON")).
Proof.
  destruct (yaml_errors_are_wrapped Fixtures.broken (initialState Fixtures.broken))
    as [_ H].
  eapply H.
  - reflexivity.
  - vm_compute. reflexivity.
  - reflexivity.
  - reflexivity.
  - vm_compute. reflexivity.
Defined.

(** X16: [loadFeatureFlags] returns a configuration exactly when it runs in
    the Node.js environment, the resolved file exists, can be read and parsed,
    and the parsed document passes the validator; what it returns is that
    document. *)
Theorem loadFeatureFlags_succeeds_iff (h : Host) (s s1 : State) (filePath : string)
    (config : JsValue) :
  detectEnvironment h = node ->
  getFeatureFlagsPath h s = (Ok filePath, s1) ->
  fst (loadFeatureFlags h s) = Ok config
  <-> fs_existsSync h filePath = true
      /\ exists text,
           fs_readFileSync h filePath = Ok text
           /\ yaml_load h text = Ok (Val config)
           /\ validateConfig (Val config) = Ok config.
Proof.
  intros D P. rewrite (loadFeatureFlags_outcome h s filePath s1 D P).
  unfold loadOutcome. split.
  - destruct (fs_existsSync h filePath); [| discriminate]. cbn [negb].
    destruct (fs_readFileSync h filePath) as [text |] eqn:R; [| discriminate].
    cbn [rbind].
    destruct (yaml_load h text) as [data |] eqn:Y; [| discriminate]. cbn [rbind].
    destruct (validateConfig_outcome data) as [(doc & -> & K) | [msg K]];
      rewrite K; [| discriminate].
    intros [= <-]. split; [reflexivity |]. exists text. auto.
  - intros (X & text & R & Y & V). rewrite X, R. cbn [negb rbind].
    rewrite Y. cbn [rbind]. rewrite V. reflexivity.
Qed.

Lemma loadFeatureFlags_succeeds_iff_witness :
  fst (loadFeatureFlags Fixtures.build (initialState Fixtures.build)) = Ok Demo.testConfig.
Proof.
  eapply (loadFeatureFlags_succeeds_iff Fixtures.build (initialState Fixtures.build)).
  - reflexivity.
  - vm_compute. reflexivity.
  - split; [reflexivity |]. eexists. split; [vm_compute; reflexivity |].
    split; vm_compute; reflexivity.
Defined.

(** ** Enabled features are listed features *)

Lemma In_indexedFrom {A : Type} (l : list A) i k x :
  In (k, x) (indexedFrom i l) -> In x l.
Proof.
  revert i. induction l as [| y l IH]; intros i; [intros [] |].
  cbn [indexedFrom]. intros [[= _ ->] | I]; [left; reflexivity | right; eapply IH, I].
Qed.

Lemma In_codeUnits t x : In x (codeUnits t) -> exists c, x = JStr (String c EmptyString).
Proof.
  induction t as [| c t IH]; [intros [] |].
  cbn [codeUnits]. intros [<- | I]; eauto.
Qed.

Lemma judge_number h n user : judge h (Val (JNum n)) user <> Ok true.
Proof.
  unfold judge. cbn [truthy]. destruct (negb (negb (Z.eqb n 0))); discriminate.
Qed.

Lemma judge_code_unit h c user :
  judge h (Val (JStr (String c EmptyString))) user <> Ok true.
Proof. discriminate. Qed.

(** When the evaluation says [true], the feature read from the
    configuration is a property of [features] itself, and [features] is an
    object. *)
Lemma verdict_true_own h config featureName user :
  verdict h config featureName user = Ok true ->
  exists features rule,
    ownProperty config "features" = Some features
    /\ ownProperty features featureName = Some rule
    /\ truthy (Val rule) = true
    /\ notAnObject (Val features) = false
    /\ In featureName (map fst (entries features)).
Proof.
  rewrite verdict_judge. intros V.
  destruct (ownProperty config "features") as [features |] eqn:F.
  2:{ destruct (getProp_features_absent _ F) as [[e E] | E]; rewrite E in V;
        discriminate V. }
  rewrite (getProp_own _ _ _ F) in V. cbn [rbind] in V.
  destruct (ownProperty features featureName) as [rule |] eqn:R.
  2:{ destruct (getProp_absent _ _ R) as [[e E] | [E | E]]; rewrite E in V;
        discriminate V. }
  rewrite (getProp_own _ _ _ R) in V. cbn [rbind] in V.
  exists features, rule. split; [reflexivity |]. split; [exact R |].
  assert (T : truthy (Val rule) = true).
  { unfold judge in V. destruct (truthy (Val rule)); [reflexivity | discriminate V]. }
  split; [exact T |].
  destruct features as [| b | n | t | items | props]; try discriminate R.
  - exfalso. cbn [ownProperty] in R.
    destruct (String.eqb featureName "length").
    + injection R as <-. exact (judge_number _ _ _ V).
    + apply assoc_In, In_indexedFrom, In_codeUnits in R. destruct R as [c ->].
      exact (judge_code_unit _ _ _ V).
  - split; [reflexivity |]. cbn [ownProperty entries] in *.
    destruct (String.eqb featureName "length").
    + exfalso. injection R as <-. exact (judge_number _ _ _ V).
    + apply assoc_In in R. apply (in_map fst) in R. exact R.
  - split; [reflexivity |]. cbn [ownProperty entries] in *.
    apply assoc_In in R. apply (in_map fst) in R. exact R.
Qed.

(** X17: for every configuration, validated or not: when
    [isFeatureEnabled(name, user)] is [true], the name is one of
    [getAllFeatureNames()], [featureExists(name)] is [true] and
    [getFeatureConfig(name)] returns the rule, not [null]. *)
Theorem enabled_is_listed (h : Host) (s : State) (featureName : string)
    (user : option UserIdentity) :
  answer h s featureName user = true ->
  In featureName (namesAt h s)
  /\ fst (featureExists h featureName s) = Ok true
  /\ exists rule,
       fst (getFeatureConfig h featureName s) = Ok (Val rule) /\ rule <> JNull.
Proof.
  rewrite answer_decision. unfold decision. intros A.
  assert (V : verdict h (configOf h s) featureName user = Ok true).
  { destruct (verdict h (configOf h s) featureName user) as [[|] |];
      [reflexivity | discriminate | discriminate]. }
  destruct (verdict_true_own _ _ _ _ V) as (features & rule & F & R & T & N & I).
  split; [| split].
  - rewrite namesAt_keysOf. unfold keysOf. rewrite (getProp_own _ _ _ F).
    cbn [rbind]. destruct features; try discriminate N; exact I.
  - destruct (featureExists_spec h featureName s) as (s' & -> & _). cbn [fst].
    rewrite (getProp_own _ _ _ F). cbn [rbind].
    rewrite (hasProperty_object _ _ N), R. reflexivity.
  - exists rule. destruct (getFeatureConfig_spec h featureName s) as (s' & -> & _).
    cbn [fst]. unfold lookupFeature. rewrite (getProp_own _ _ _ F). cbn [rbind].
    rewrite (getProp_own _ _ _ R), T. split; [reflexivity |].
    intros ->. discriminate T.
Qed.

Lemma enabled_is_listed_witness :
  In "test_feature_enabled" (namesAt Demo.testHost (initialState Demo.testHost))
  /\ fst (featureExists Demo.testHost "test_feature_enabled" (initialState Demo.testHost))
     = Ok true
  /\ exists rule,
       fst (getFeatureConfig Demo.testHost "test_feature_enabled"
              (initialState Demo.testHost)) = Ok (Val rule)
       /\ rule <> JNull.
Proof.
  apply (enabled_is_listed Demo.testHost (initialState Demo.testHost)
           "test_feature_enabled" None).
  vm_compute. reflexivity.
Defined.

(** X18: [getEnabledFeatures(user)] returns exactly the enabled features: a
    name is in the result if and only if [isFeatureEnabled(name, user)] is
    [true]. *)
Theorem getEnabledFeatures_exact (h : Host) (user : option UserIdentity) (s : State) :
  exists names,
    fst (getEnabledFeatures h user s) = Ok names
    /\ forall name, In name names <-> answer h s name user = true.
Proof.
  exists (List.filter (fun name => answer h s name user) (namesAt h s)).
  split; [rewrite namesAt_keysOf; apply getEnabledFeatures_keys |].
  intros name. rewrite filter_In. split.
  - intros [_ A]. exact A.
  - intros A. split; [| exact A].
    rewrite answer_decision in A. unfold decision in A.
    assert (V : verdict h (configOf h s) name user = Ok true).
    { destruct (verdict h (configOf h s) name user) as [[|] |];
        [reflexivity | discriminate | discriminate]. }
    destruct (verdict_true_own _ _ _ _ V) as (features & rule & F & _ & _ & N & I).
    rewrite namesAt_keysOf. unfold keysOf. rewrite (getProp_own _ _ _ F).
    cbn [rbind]. destruct features; try discriminate N; exact I.
Qed.

(** ** What a call writes *)

Lemma Logger_warn_silent msg s :
  Logger_isDev s = false -> Logger_warn msg s = (Ok tt, s).
Proof. intros D. unfold Logger_warn. rewrite D. reflexivity. Qed.

Lemma evaluate_silent h config featureName user s :
  Logger_isDev s = false ->
  evaluate h config featureName user s = (verdict h config featureName user, s).
Proof.
  intros D.
  destruct (evaluate_verdict h config featureName user s) as (s' & E & _).
  rewrite E. f_equal.
  assert (K : snd (evaluate h config featureName user s) = s).
  { unfold evaluate, bind, lift, ret.
    destruct (getProp (Val config) "features") as [features |]; [| reflexivity].
    destruct (getProp features featureName) as [feature |]; [| reflexivity].
    destruct (negb (truthy feature)).
    { rewrite (Logger_warn_silent _ _ D). reflexivity. }
    destruct (getProp feature "onlyForUserIds") as [ids |]; [| reflexivity].
    destruct (truthy ids).
    - destruct (getProp ids "length") as [len |]; [| reflexivity].
      destruct (greaterThanZero h len) as [[|] |]; [| | reflexivity].
      + destruct (user ≫= userId) as [[| c id] |]; reflexivity.
      + destruct (hasProperty "enabled" feature) as [[|] |]; try reflexivity.
        destruct (getProp feature "enabled"); reflexivity.
    - destruct (hasProperty "enabled" feature) as [[|] |]; try reflexivity.
      destruct (getProp feature "enabled"); reflexivity. }
  rewrite E in K. exact K.
Qed.

(** X19: outside development mode, with a validated configuration in the
    cache whose [features] is a mapping, [isFeatureEnabled] is a pure query:
    it returns its answer and leaves the state, output included, exactly as it
    was. *)
Theorem pure_query_in_production (h : Host) (s : State)
    (rules : list (string * JsValue)) :
  Logger_isDev s = false ->
  truthy (Val (cachedConfig s)) = true ->
  validateConfig (Val (cachedConfig s)) = Ok (cachedConfig s) ->
  ownProperty (cachedConfig s) "features" = Some (JObj rules) ->
  forall featureName user,
    isFeatureEnabled h featureName user s = (Ok (answer h s featureName user), s).
Proof.
  intros D T V F featureName user.
  rewrite answer_decision. unfold decision, configOf. rewrite T.
  unfold isFeatureEnabled, tryCatch, bind.
  rewrite (getConfig_cached h s T), (evaluate_silent _ _ _ _ _ D).
  destruct (validated_verdict h (cachedConfig s) rules featureName user V F) as [b ->].
  reflexivity.
Qed.

Lemma pure_query_in_production_witness :
  isFeatureEnabled Fixtures.bare "unknown" None
    (Fixtures.cached Fixtures.bare Demo.testConfig)
  = (Ok (answer Fixtures.bare (Fixtures.cached Fixtures.bare Demo.testConfig)
           "unknown" None),
     Fixtures.cached Fixtures.bare Demo.testConfig).
Proof.
  eapply (pure_query_in_production Fixtures.bare
            (Fixtures.cached Fixtures.bare Demo.testConfig)).
  - reflexivity.
  - reflexivity.
  - vm_compute. reflexivity.
  - reflexivity.
Defined.

(** X20: in development mode, asking for a name that [features] (a mapping
    in the cache) does not have writes one warning that quotes the name, and
    returns [false]; but for the name of a member of [Object.prototype] the
    lookup finds that member, so nothing is written. *)
Theorem warning_for_unknown (h : Host) (s : State) (rules : list (string * JsValue))
    (featureName : string) (user : option UserIdentity) :
  Logger_isDev s = true ->
  truthy (Val (cachedConfig s)) = true ->
  ownProperty (cachedConfig s) "features" = Some (JObj rules) ->
  assoc featureName rules = None ->
  isFeatureEnabled h featureName user s
  = (Ok false,
     if memberOf featureName objectPrototype then s
     else
       let line := "Feature " +:+ dq +:+ featureName +:+ dq
                   +:+ " not found in configuration" in
       addOutput (match Logger_env s with
                  | browser => console_warn (prefix +:+ " " +:+ line)
                  | node => stderr_write (prefix +:+ " WARNING: " +:+ line +:+ newline)
                  end) s).
Proof.
  intros D T F A.
  unfold isFeatureEnabled, tryCatch, bind at 1.
  rewrite (getConfig_cached h s T).
  unfold evaluate, bind at 1, lift at 1. rewrite (getProp_own _ _ _ F).
  unfold bind at 1, lift at 1.
  rewrite (getProp_object (JObj rules) featureName eq_refl).
  cbn [ownProperty inherited]. rewrite A.
  destruct (memberOf featureName objectPrototype).
  - reflexivity.
  - cbn [truthy negb]. unfold bind, Logger_warn, ret. rewrite D. cbn [negb].
    destruct (Logger_env s); reflexivity.
Qed.

Lemma warning_for_unknown_witness :
  let h := Demo.host {[ "NODE_ENV" := "dev" ]} ∅ in
  output (snd (isFeatureEnabled h "nope" None (Fixtures.cached h Demo.testConfig)))
  = [stderr_write
       (prefix +:+ " WARNING: " +:+ ("Feature " +:+ dq +:+ "nope" +:+ dq
                                     +:+ " not found in configuration") +:+ newline)]
  /\ output (snd (isFeatureEnabled h "valueOf" None (Fixtures.cached h Demo.testConfig)))
     = [].
Proof.
  cbv zeta. split.
  - erewrite (warning_for_unknown (Demo.host {[ "NODE_ENV" := "dev" ]} ∅)
                (Fixtures.cached (Demo.host {[ "NODE_ENV" := "dev" ]} ∅) Demo.testConfig)
                _ "nope" None).
    + reflexivity.
    + vm_compute. reflexivity.
    + reflexivity.
    + reflexivity.
    + reflexivity.
  - erewrite (warning_for_unknown (Demo.host {[ "NODE_ENV" := "dev" ]} ∅)
                (Fixtures.cached (Demo.host {[ "NODE_ENV" := "dev" ]} ∅) Demo.testConfig)
                _ "valueOf" None).
    + reflexivity.
    + vm_compute. reflexivity.
    + reflexivity.
    + reflexivity.
    + reflexivity.
Defined.

(** ** Which file is loaded *)

Lemma getFeatureFlagsPath_run h s :
  forall env,
    process_env h = Some env ->
    exists s1,
      getFeatureFlagsPath h s
      = (Ok (match orElse (env !! "FEATURE_FLAGS_FILE") (env !! "FFXL_FILE") with
             | None | Some "" => path_join h (process_cwd h) "feature-flags.yaml"
             | Some envPath =>
                 if path_isAbsolute h envPath then envPath
                 else path_join h (process_cwd h) envPath
             end), s1).
Proof.
  intros env P. unfold getFeatureFlagsPath. rewrite P.
  destruct (orElse _ _) as [[| c p] |]; unfold bind, ret;
    match goal with |- context [Logger_info ?m s] =>
      destruct (Logger_info_run m s) as (s1 & -> & _) end;
    eauto.
Qed.

(** X21: the file [loadFeatureFlags] works on: the value of
    [FEATURE_FLAGS_FILE] when it is defined and not empty, else that of
    [FFXL_FILE] when it is defined and not empty, taken as it is when absolute
    and joined to the working directory otherwise; else [feature-flags.yaml]
    in the working directory. *)
Theorem path_resolution (h : Host) (s : State) (env : gmap string string) :
  detectEnvironment h = node ->
  process_env h = Some env ->
  (forall p,
      env !! "FEATURE_FLAGS_FILE" = Some p -> p <> "" ->
      fst (loadFeatureFlags h s)
      = loadOutcome h (if path_isAbsolute h p then p
                       else path_join h (process_cwd h) p))
  /\ (forall p,
        env !! "FEATURE_FLAGS_FILE" = None \/ env !! "FEATURE_FLAGS_FILE" = Some "" ->
        env !! "FFXL_FILE" = Some p -> p <> "" ->
        fst (loadFeatureFlags h s)
        = loadOutcome h (if path_isAbsolute h p then p
                         else path_join h (process_cwd h) p))
  /\ (env !! "FEATURE_FLAGS_FILE" = None \/ env !! "FEATURE_FLAGS_FILE" = Some "" ->
      env !! "FFXL_FILE" = None \/ env !! "FFXL_FILE" = Some "" ->
      fst (loadFeatureFlags h s)
      = loadOutcome h (path_join h (process_cwd h) "feature-flags.yaml")).
Proof.
  intros D P. destruct (getFeatureFlagsPath_run h s env P) as (s1 & G).
  pose proof (loadFeatureFlags_outcome h s _ s1 D G) as O.
  split; [| split].
  - intros p E N. rewrite O, E. destruct p; [congruence | reflexivity].
  - intros p E E' N. rewrite O, E'.
    destruct E as [-> | ->]; destruct p; try congruence; reflexivity.
  - intros E E'. rewrite O.
    destruct E as [-> | ->], E' as [-> | ->]; reflexivity.
Qed.

Lemma path_resolution_witness :
  let files : gmap string string :=
    {[ "/app/flags/dev.yaml" := Demo.stringify Demo.testConfig ]} in
  fst (loadFeatureFlags (Demo.host {[ "FFXL_FILE" := "flags/dev.yaml" ]} files)
         (initialState Fixtures.bare))
  = Ok Demo.testConfig.
Proof.
  cbv zeta.
  destruct (path_resolution
              (Demo.host {[ "FFXL_FILE" := "flags/dev.yaml" ]}
                 {[ "/app/flags/dev.yaml" := Demo.stringify Demo.testConfig ]})
              (initialState Fixtures.bare) _ eq_refl eq_refl) as (_ & H & _).
  rewrite (H "flags/dev.yaml").
  - vm_compute. reflexivity.
  - left. reflexivity.
  - reflexivity.
  - discriminate.
Defined.

(** ** A transport string that does not parse *)

(** X22: when the cache is empty and [JSON.parse] rejects the transport
    string, [getConfig] writes one error line with the parser's message, in
    development mode or not, stores the empty configuration and returns it;
    nothing else changes. *)
Theorem parse_failure_is_logged (h : Host) (s : State) (text : string) (e : JsError) :
  truthy (Val (cachedConfig s)) = false ->
  configString h = Some text ->
  text <> "" ->
  JSON_parse h text = Throw e ->
  let line := "Failed to parse feature flags config: " +:+ message e in
  getConfig h s
  = (Ok emptyConfig,
     setCache emptyConfig
       (addOutput (match Logger_env s with
                   | browser => console_error (prefix +:+ " " +:+ line)
                   | node => stderr_write (prefix +:+ " ERROR: " +:+ line +:+ newline)
                   end) s)).
Proof.
  intros T C N J. cbv zeta.
  unfold getConfig, bind at 1, readCache at 1. rewrite T, C.
  destruct text as [| c text]; [congruence |].
  unfold tryCatch, bind at 1, lift. rewrite J.
  unfold bind, Logger_error, writeCache, readCache.
  destruct (Logger_env s); reflexivity.
Qed.

Lemma parse_failure_is_logged_witness :
  getConfig Fixtures.garbled (initialState Fixtures.garbled)
  = (Ok emptyConfig,
     setCache emptyConfig
       (addOutput
          (stderr_write
             (prefix +:+ " ERROR: "
              +:+ ("Failed to parse feature flags config: " +:+ "Unexpected token in JSON")
              +:+ newline))
          (initialState Fixtures.garbled))).
Proof.
  apply (parse_failure_is_logged Fixtures.garbled (initialState Fixtures.garbled)
           "{oops" (SyntaxError "Unexpected token in JSON")).
  - reflexivity.
  - vm_compute. reflexivity.
  - discriminate.
  - vm_compute. reflexivity.
Defined.
